(** * vmware_task: the four host checks and their orchestrator

    A shallow embedding of [src/vmware_task.py]: the two platform
    implementations ([WindowsImplementation], [LinuxMacImplementation]),
    the bridge class [VmwareTask] and the control function [run_tasks],
    over an explicit model of what the Python code touches: a file system,
    child processes, the resolver, an HTTP client and the logger.

    Python code is translated into a state-and-exception monad [M]: a
    computation reads the environment (the outcomes of everything outside
    the process), threads the state (file system and the trace of
    observable actions) and either returns a value or raises. *)

From Stdlib Require Import ZArith Ascii.
From stdpp Require Import gmap strings list fin_maps pretty.

Local Open Scope Z_scope.

(* ===================================================================== *)
(** ** Strings as Python uses them here *)
(* ===================================================================== *)

Module Str.

(** The backslash, written by its code so that no literal ends in it. *)
Definition bslash : ascii := "092"%char.
Definition slash : ascii := "/"%char.

Definition of_char (c : ascii) : string := String c "".

(** [s[:n]] *)
Fixpoint take (n : nat) (s : string) : string :=
  match n, s with
  | S n', String c s' => String c (take n' s')
  | _, _ => ""
  end.

(** [s[n:]] *)
Fixpoint drop (n : nat) (s : string) : string :=
  match n, s with
  | S n', String _ s' => drop n' s'
  | _, _ => s
  end.

(** [s[i:j]] for [i <= j] *)
Definition slice (i j : nat) (s : string) : string := take (j - i) (drop i s).

(** [s[i]], when in range *)
Fixpoint get (i : nat) (s : string) : option ascii :=
  match s, i with
  | "", _ => None
  | String c _, O => Some c
  | String _ s', S i' => get i' s'
  end.

(** [s.replace(a, b)] for single characters *)
Fixpoint replace (a b : ascii) (s : string) : string :=
  match s with
  | "" => ""
  | String c s' => String (if decide (c = a) then b else c) (replace a b s')
  end.

(** [s.find(c)]: index of the first [c], counted from the start of [s]. *)
Fixpoint index_of (c : ascii) (s : string) : option nat :=
  match s with
  | "" => None
  | String c' s' => if decide (c' = c) then Some O else S <$> index_of c s'
  end.

(** [s.find(c, start)]; [None] is Python's [-1]. *)
Definition find (c : ascii) (start : nat) (s : string) : option nat :=
  (λ i, (start + i)%nat) <$> index_of c (drop start s).

(** [s.rstrip(chars)] with the character set given as a predicate. *)
Fixpoint rstrip (strip : ascii → bool) (s : string) : string :=
  match s with
  | "" => ""
  | String c s' =>
      let r := rstrip strip s' in
      if decide (r = "") then (if strip c then "" else String c "") else String c r
  end.

(** [s.split(sep)] generalised to a set of separators: the pieces between
    separators, empty pieces included. *)
Fixpoint split_go (issep : ascii → bool) (cur : string) (s : string) : list string :=
  match s with
  | "" => [String.rev cur]
  | String c s' =>
      if issep c then String.rev cur :: split_go issep "" s'
      else split_go issep (String c cur) s'
  end.
Definition split (issep : ascii → bool) (s : string) : list string :=
  split_go issep "" s.

(** [sep.join(l)] *)
Fixpoint join (sep : string) (l : list string) : string :=
  match l with
  | [] => ""
  | [x] => x
  | x :: l' => x +:+ sep +:+ join sep l'
  end.

Definition starts_with (p : ascii → bool) (s : string) : bool :=
  match s with String c _ => p c | "" => false end.

(** Whether [s] holds the character NUL, which no file name, program
    argument or command line can hold. *)
Fixpoint has_nul (s : string) : bool :=
  match s with
  | "" => false
  | String c s' => bool_decide (c = "000"%char) || has_nul s'
  end.

End Str.

(* ===================================================================== *)
(** ** Paths: [os.path] and [pathlib] for the two platforms *)
(* ===================================================================== *)

(** [os.path] is [ntpath] on Windows and [posixpath] elsewhere; the
    Windows implementation is read on the first, the Linux/Mac one on the
    second. *)
Inductive flavour := nt | posix.

Global Instance flavour_eq_dec : EqDecision flavour.
Proof. solve_decision. Defined.

Module Path.

Definition is_sep (fl : flavour) (c : ascii) : bool :=
  match fl with
  | nt => bool_decide (c = Str.bslash) || bool_decide (c = Str.slash)
  | posix => bool_decide (c = Str.slash)
  end.

Definition sep (fl : flavour) : string :=
  match fl with nt => Str.of_char Str.bslash | posix => "/" end.

(** [ntpath.splitdrive]: a drive letter with its colon, or a UNC
    [\\host\share] prefix, is split off. *)
Definition ntpath_splitdrive (p : string) : string * string :=
  if decide (2 ≤ String.length p)%nat then
    let normp := Str.replace Str.slash Str.bslash p in
    if bool_decide (Str.slice 0 2 normp = String Str.bslash (String Str.bslash ""))
       && negb (bool_decide (Str.slice 2 3 normp = Str.of_char Str.bslash)) then
      match Str.find Str.bslash 2 normp with
      | None => ("", p)
      | Some index =>
          match Str.find Str.bslash (index + 1) normp with
          | Some index2 =>
              if decide (index2 = index + 1)%nat then ("", p)
              else (Str.take index2 p, Str.drop index2 p)
          | None => (p, "")
          end
      end
    else if bool_decide (Str.slice 1 2 normp = ":") then (Str.take 2 p, Str.drop 2 p)
    else ("", p)
  else ("", p).

Definition splitdrive (fl : flavour) (p : string) : string * string :=
  match fl with
  | nt => ntpath_splitdrive p
  | posix => ("", p)
  end.

(** The loop of [ntpath.split]: [while i and p[i-1] not in seps: i -= 1]. *)
Fixpoint last_sep_end (fl : flavour) (p : string) (i : nat) : nat :=
  match i with
  | O => O
  | S j =>
      match Str.get j p with
      | Some c => if is_sep fl c then i else last_sep_end fl p j
      | None => last_sep_end fl p j
      end
  end.

(** [os.path.split] *)
Definition os_path_split (fl : flavour) (p : string) : string * string :=
  let '(d, p) := splitdrive fl p in
  let i := last_sep_end fl p (String.length p) in
  let head := Str.take i p in
  let tail := Str.drop i p in
  let stripped := Str.rstrip (is_sep fl) head in
  let head := if decide (stripped = "") then head else stripped in
  (d +:+ head, tail).

(** [os.path.dirname] *)
Definition os_path_dirname (fl : flavour) (p : string) : string :=
  fst (os_path_split fl p).

(** A [pathlib.PurePath]: drive, whether it has a root, and the
    components below the anchor. *)
Record purepath := PurePath {
  drive : string;
  root : bool;
  parts : list string
}.

Definition keep_part (c : string) : bool :=
  negb (bool_decide (c = "")) && negb (bool_decide (c = ".")).

(** Parsing a path string: empty components and [.] are dropped, [..]
    is kept. *)
Definition parse (fl : flavour) (s : string) : purepath :=
  let '(d, rest) := splitdrive fl s in
  {| drive := d;
     root := Str.starts_with (is_sep fl) rest;
     parts := filter (λ c, keep_part c = true) (Str.split (is_sep fl) rest) |}.

(** Whether a path string, by the way it ends, can only name a
    directory: on POSIX it ends in a separator or in the component [.];
    on Windows, where a trailing [.] component is cut off before the
    look-up, it ends in a separator. *)
Definition ends_in_directory (fl : flavour) (s : string) : bool :=
  let '(_, rest) := splitdrive fl s in
  match last (Str.split (is_sep fl) rest) with
  | Some c =>
      match fl with
      | posix => negb (keep_part c)
      | nt => bool_decide (c = "")
      end
  | None => false
  end.

(** [a / b]: a later segment with a drive or a root replaces what is
    anchored before it. *)
Definition joinpath (a b : purepath) : purepath :=
  if negb (bool_decide (drive b = "")) then b
  else if root b then {| drive := drive a; root := true; parts := parts b |}
  else {| drive := drive a; root := root a; parts := parts a ++ parts b |}.

(** [pathlib.Path(seg0, seg1, ...)] *)
Definition pathlib_Path (fl : flavour) (segments : list string) : purepath :=
  foldl (λ acc s, joinpath acc (parse fl s))
        {| drive := ""; root := false; parts := [] |} segments.

(** [str(path)] *)
Definition to_string (fl : flavour) (p : purepath) : string :=
  let body := Str.join (sep fl) (parts p) in
  let anchor := drive p +:+ (if root p then sep fl else "") in
  if decide (anchor +:+ body = "") then "." else anchor +:+ body.

End Path.

(* ===================================================================== *)
(** ** Exceptions *)
(* ===================================================================== *)

(** The exception classes the code names or the library calls raise, with
    Python's class hierarchy ([socket.error] is [OSError];
    [requests.exceptions.RequestException] derives from [IOError], which is
    [OSError] too; [UnicodeError] is a [ValueError]). *)
Inductive exn_class :=
| Exception
| TypeError
| ValueError
| UnicodeError
| OSError
| FileExistsError
| FileNotFoundError
| PermissionError
| IsADirectoryError
| NotADirectoryError
| socket_herror
| socket_gaierror
| SubprocessError
| CalledProcessError
| RequestException
| requests_ConnectionError
| requests_Timeout
| requests_InvalidURL.

Global Instance exn_class_eq_dec : EqDecision exn_class.
Proof. solve_decision. Defined.

Definition base_class (c : exn_class) : option exn_class :=
  match c with
  | Exception => None
  | TypeError | ValueError | OSError | SubprocessError => Some Exception
  | UnicodeError => Some ValueError
  | FileExistsError | FileNotFoundError | PermissionError
  | IsADirectoryError | NotADirectoryError
  | socket_herror | socket_gaierror | RequestException => Some OSError
  | CalledProcessError => Some SubprocessError
  | requests_ConnectionError | requests_Timeout | requests_InvalidURL =>
      Some RequestException
  end.

(** [issubclass(c, d)], climbing at most [n] base classes. *)
Fixpoint issubclass_upto (n : nat) (c d : exn_class) : bool :=
  bool_decide (c = d) ||
  match n with
  | O => false
  | S n' => match base_class c with
            | Some b => issubclass_upto n' b d
            | None => false
            end
  end.

Definition issubclass : exn_class → exn_class → bool := issubclass_upto 4.

Record exn := Exn { exn_cls : exn_class; exn_msg : string }.

(* ===================================================================== *)
(** ** The world outside the process *)
(* ===================================================================== *)

(** File-system nodes, keyed by their absolute location: the list of
    components from the root (on Windows the drive comes first). The
    [writable] flag is what [os.access(_, os.W_OK)] reports and what
    opening for writing needs. *)
Inductive node :=
| Dir (writable : bool)
| File (writable : bool) (content : string).

Abbreviation fskey := (list string).

(** How a child process ended. *)
Inductive termination :=
| Exited (code : Z)
| Signaled (sig : positive).

(** What becomes of an attempt to run a program: it cannot be started
    (there is no such program, or it may not be executed), or it runs,
    ends, and leaves the file system as it pleases. *)
Inductive start_error := NoSuchProgram | NotExecutable.
Inductive launch :=
| NotStarted (why : start_error) (msg : string)
| Ran (ended : termination) (after : gmap fskey node).

(** [socket.gethostbyaddr] returns [(hostname, aliaslist, ipaddrlist)],
    raises [socket.herror] / [socket.gaierror], or turns its argument
    down before any look-up: with [UnicodeError] when the text cannot be
    encoded as a host name (a label longer than 63 characters, say), with
    [ValueError] or [TypeError] otherwise. *)
Inductive dns_error := herror | gaierror.
Inductive dns_rejection := BadEncoding | BadValue | BadType.
Inductive dns_outcome :=
| DnsOk (hostent : string * list string * list string)
| DnsFail (kind : dns_error) (msg : string)
| DnsReject (kind : dns_rejection) (msg : string).

(** [requests.get] returns a response, of which the code reads only
    [status_code], or raises a subclass of [RequestException]. *)
Inductive http_error := ConnectionError | Timeout | InvalidURL.
Inductive http_outcome :=
| HttpResponse (status_code : Z)
| HttpFail (kind : http_error) (msg : string).

(** Everything the run does not decide itself. What a program does
    depends on its argument vector and on the file system it finds. *)
Record environ := Environ {
  cwd : fskey;
  run_process : list string → gmap fskey node → launch;
  resolver : string → dns_outcome;
  http : string → http_outcome
}.

Inductive level := INFO | ERROR.

(** Observable actions, in the order they happen. *)
Inductive event :=
| EvExists (p : string) (r : bool)        (* os.path.exists(p) *)
| EvAccessW (p : string) (r : bool)       (* os.access(p, os.W_OK) *)
| EvIsFile (p : string) (r : bool)        (* os.path.isfile(p) *)
| EvOpenW (p : string)                    (* open(p, "w") attempted *)
| EvWrite (p : string) (data : string)    (* f.write(data) *)
| EvClose (p : string)
| EvSpawn (argv : list string)            (* a child process is started *)
| EvGetHostByAddr (ip : string)           (* one look-up by socket.gethostbyaddr *)
| EvHttpGet (url : string) (timeout : Z)  (* one call of requests.get *)
| EvLog (lvl : level) (msg : string) (args : list string).

Global Instance level_eq_dec : EqDecision level.
Proof. solve_decision. Defined.
Global Instance event_eq_dec : EqDecision event.
Proof. solve_decision. Defined.

Record state := State {
  fs : gmap fskey node;
  trace : list event
}.

Definition emit (ev : event) (st : state) : state :=
  {| fs := fs st; trace := trace st ++ [ev] |}.

Definition set_fs (m : gmap fskey node) (st : state) : state :=
  {| fs := m; trace := trace st |}.

(* ===================================================================== *)
(** ** The monad of Python computations *)
(* ===================================================================== *)

Inductive outcome (A : Type) :=
| Ret (a : A)
| Raise (e : exn).
Arguments Ret {A} a.
Arguments Raise {A} e.

Definition M (A : Type) : Type := environ → state → outcome A * state.

Definition ret {A} (a : A) : M A := λ _ st, (Ret a, st).

Definition raise {A} (c : exn_class) (msg : string) : M A :=
  λ _ st, (Raise (Exn c msg), st).

Definition bind {A B} (m : M A) (k : A → M B) : M B :=
  λ env st,
    match m env st with
    | (Ret a, st') => k a env st'
    | (Raise e, st') => (Raise e, st')
    end.

Notation "'let*' x ':=' m 'in' k" := (bind m (λ x, k))
  (at level 10, x binder, k at level 200).

(** An [except A as e: ...] clause. *)
Definition handler (A : Type) : Type := exn_class * (exn → M A).

Fixpoint find_handler {A} (hs : list (handler A)) (e : exn) : option (exn → M A) :=
  match hs with
  | [] => None
  | (c, h) :: hs' => if issubclass (exn_cls e) c then Some h else find_handler hs' e
  end.

(** [try: body  except A: h1  except B: h2 ...]: the first clause whose
    class the exception is an instance of runs; with none, it propagates. *)
Definition try_except {A} (body : M A) (hs : list (handler A)) : M A :=
  λ env st,
    match body env st with
    | (Ret a, st') => (Ret a, st')
    | (Raise e, st') =>
        match find_handler hs e with
        | Some h => h e env st'
        | None => (Raise e, st')
        end
    end.

Definition tell (ev : event) : M unit := λ _ st, (Ret tt, emit ev st).
Definition ask : M environ := λ env st, (Ret env, st).
Definition get_fs : M (gmap fskey node) := λ _ st, (Ret (fs st), st).
Definition put_fs (m : gmap fskey node) : M unit := λ _ st, (Ret tt, set_fs m st).

(* ===================================================================== *)
(** ** The operating system and the libraries *)
(* ===================================================================== *)

Module Os.

(** Number of leading key components that [..] cannot climb above: the
    drive on Windows, nothing on POSIX. *)
Definition rootlen (fl : flavour) : nat :=
  match fl with nt => 1%nat | posix => 0%nat end.

Definition parent (fl : flavour) (k : fskey) : fskey :=
  if decide (length k ≤ rootlen fl)%nat then k else take (length k - 1) k.

(** Path look-up: every component is entered from an existing directory;
    the node reached last need not exist. [..] steps back to the parent
    on both platforms (Windows does that on the text of the path, which
    comes to the same when the components before [..] are existing
    directories). Symbolic links, search permission, and what Windows
    does to names (case-insensitivity, trailing dots and spaces) are not
    modelled. *)
Fixpoint walk (fl : flavour) (m : gmap fskey node) (cur : fskey) (ps : list string)
  : option fskey :=
  match ps with
  | [] => Some cur
  | c :: ps' =>
      match m !! cur with
      | Some (Dir _) =>
          walk fl m (if decide (c = "..") then parent fl cur else cur ++ [c]) ps'
      | _ => None
      end
  end.

(** Where look-up starts: at the root (of the named or the current
    drive) for a rooted path, at the working directory otherwise. *)
Definition start (fl : flavour) (wd : fskey) (p : Path.purepath) : fskey :=
  match fl with
  | posix => if Path.root p then [] else wd
  | nt =>
      let d := if decide (Path.drive p = "") then take 1 wd else [Path.drive p] in
      if Path.root p then d
      else if decide (d = take 1 wd) then wd else d
  end.

Definition resolve (fl : flavour) (wd : fskey) (m : gmap fskey node) (p : Path.purepath)
  : option fskey :=
  walk fl m (start fl wd p) (Path.parts p).

(** [os.stat] on a path string. The empty string names nothing, and
    neither does a string with a NUL in it ([os.path.exists] and
    [os.path.isfile] answer [False] there, since Python 3.8). A string
    that ends in a separator or in [.] names what it leads to only if
    that is a directory. *)
Definition stat (fl : flavour) (wd : fskey) (m : gmap fskey node) (p : string)
  : option node :=
  if decide (p = "") then None
  else if Str.has_nul p then None
  else
    k ← resolve fl wd m (Path.parse fl p);
    n ← m !! k;
    match n with
    | Dir _ => Some n
    | File _ _ => if Path.ends_in_directory fl p then None else Some n
    end.

(** [os.path.exists(p)] *)
Definition os_path_exists (fl : flavour) (p : string) : M bool :=
  let* env := ask in
  let* m := get_fs in
  let r := bool_decide (is_Some (stat fl (cwd env) m p)) in
  let* _ := tell (EvExists p r) in
  ret r.

(** [os.path.isfile(p)] *)
Definition os_path_isfile (fl : flavour) (p : string) : M bool :=
  let* env := ask in
  let* m := get_fs in
  let r := match stat fl (cwd env) m p with Some (File _ _) => true | _ => false end in
  let* _ := tell (EvIsFile p r) in
  ret r.

(** [os.access(p, os.W_OK)] *)
Definition os_access_W_OK (fl : flavour) (p : string) : M bool :=
  let* env := ask in
  let* m := get_fs in
  let r := match stat fl (cwd env) m p with
           | Some (Dir w) | Some (File w _) => w
           | None => false
           end in
  let* _ := tell (EvAccessW p r) in
  ret r.

(** [os.getcwd()] *)
Definition os_getcwd (fl : flavour) : M string :=
  let* env := ask in
  ret (match fl with
       | posix => "/" +:+ Str.join "/" (cwd env)
       | nt => match cwd env with
               | [] => ""
               | d :: rest => d +:+ Path.sep nt +:+ Str.join (Path.sep nt) rest
               end
       end).

(** An open file: where it is and the name it was opened under. *)
Record file := FileObj { f_key : fskey; f_name : string }.

(** [open(p, "w")] on a path object: an existing file is truncated, a
    missing one is created in its directory. Mode ["w"] never raises
    [FileExistsError]; that is what mode ["x"] does. The path object is
    looked up by its parts, which is what parsing [str(p)] gives again. *)
Definition open_w (fl : flavour) (p : Path.purepath) : M file :=
  let name := Path.to_string fl p in
  let* env := ask in
  let* m := get_fs in
  let* _ := tell (EvOpenW name) in
  match resolve fl (cwd env) m p with
  | None => raise FileNotFoundError name
  | Some k =>
      match m !! k with
      | Some (Dir _) => raise IsADirectoryError name
      | Some (File false _) => raise PermissionError name
      | Some (File true _) =>
          let* _ := put_fs (<[k := File true ""]> m) in
          ret (FileObj k name)
      | None =>
          match m !! take (length k - 1) k with
          | Some (Dir true) =>
              let* _ := put_fs (<[k := File true ""]> m) in
              ret (FileObj k name)
          | Some (Dir false) => raise PermissionError name
          | _ => raise FileNotFoundError name
          end
      end
  end.

(** [f.write(data)] *)
Definition f_write (f : file) (data : string) : M unit :=
  let* m := get_fs in
  let* _ := tell (EvWrite (f_name f) data) in
  match m !! f_key f with
  | Some (File w content) => put_fs (<[f_key f := File w (content +:+ data)]> m)
  | _ => ret tt
  end.

(** [with open(p, "w") as f: body]: the file is closed whether the body
    returns or raises. *)
Definition with_open_w {A} (fl : flavour) (p : Path.purepath) (body : file → M A) : M A :=
  let* f := open_w fl p in
  λ env st,
    let '(r, st') := body f env st in
    (r, emit (EvClose (f_name f)) st').

(** Python values that reach the library calls below as arguments: an
    [int], a [str], or an [ipaddress.IPv4Address] / [IPv6Address] object,
    given by the text that [str()] makes of it. *)
Inductive ip_version := IPv4 | IPv6.
Inductive pyval :=
| PyInt (n : Z)
| PyStr (s : string)
| PyAddress (version : ip_version) (text : string).

(** [str(v)], which is also what an f-string puts for [{v}]. *)
Definition py_str (v : pyval) : string :=
  match v with
  | PyInt n => pretty n
  | PyStr s => s
  | PyAddress _ text => text
  end.

(** [type(v).__name__] *)
Definition type_name (v : pyval) : string :=
  match v with
  | PyInt _ => "int"
  | PyStr _ => "str"
  | PyAddress IPv4 _ => "IPv4Address"
  | PyAddress IPv6 _ => "IPv6Address"
  end.

Definition launch_error (why : start_error) : exn_class :=
  match why with
  | NoSuchProgram => FileNotFoundError
  | NotExecutable => PermissionError
  end.

(** Starting the program [argv] and waiting for it: [OSError] when it
    cannot be started; otherwise the child has run, and the file system
    is as the child left it. *)
Definition spawn_and_wait (argv : list string) : M termination :=
  let* env := ask in
  let* m := get_fs in
  match run_process env argv m with
  | NotStarted why msg => raise (launch_error why) msg
  | Ran ended after =>
      let* _ := tell (EvSpawn argv) in
      let* _ := put_fs after in
      ret ended
  end.

(** The strings of an argument vector, or its first item that is not a
    string. *)
Fixpoint as_arguments (argv : list pyval) : pyval + list string :=
  match argv with
  | [] => inr []
  | PyStr s :: rest =>
      match as_arguments rest with
      | inr args => inr (s :: args)
      | inl v => inl v
      end
  | v :: _ => inl v
  end.

(** [subprocess.call(argv)]: the child's return code; the negated signal
    number if a signal ended it. An item of [argv] that is not a string
    (nor bytes, nor path-like) is a [TypeError], a string with a NUL in
    it a [ValueError], both before anything is started. *)
Definition subprocess_call (argv : list pyval) : M Z :=
  match as_arguments argv with
  | inl v =>
      raise TypeError ("expected str, bytes or os.PathLike object, not " +:+ type_name v)
  | inr args =>
      if existsb Str.has_nul args then raise ValueError "embedded null character"
      else
        let* t := spawn_and_wait args in
        ret (match t with Exited c => c | Signaled s => Z.neg s end)
  end.

(** [os.system(cmd)]: the command line is handed to the shell, which is
    started as [sh -c cmd]; what the shell makes of the text (words,
    operators, quoting, the programs it starts in turn) is the doing of
    that child. The result is the wait status, exit code in the high
    byte, or [-1], not zero either, when no child could be started. A
    command line with a NUL in it is a [ValueError]. *)
Definition os_system (cmd : string) : M Z :=
  if Str.has_nul cmd then raise ValueError "embedded null byte"
  else
    let* env := ask in
    let* m := get_fs in
    match run_process env ["sh"; "-c"; cmd] m with
    | NotStarted _ _ => ret (-1)
    | Ran ended after =>
        let* _ := tell (EvSpawn ["sh"; "-c"; cmd]) in
        let* _ := put_fs after in
        ret (match ended with Exited c => Z.shiftl c 8 | Signaled s => Z.pos s end)
    end.

Record popen := PopenObj { returncode : termination }.

(** [subprocess.Popen(args, bufsize)]: the second positional parameter
    is [bufsize], and the constructor begins with
    [if not isinstance(bufsize, int): raise TypeError(...)]. *)
Definition subprocess_Popen (args : string) (bufsize : pyval) : M popen :=
  match bufsize with
  | PyInt _ =>
      let* t := spawn_and_wait [args] in
      ret (PopenObj t)
  | _ => raise TypeError "bufsize must be an integer"
  end.

(** [p.communicate()] with no pipes: [(None, None)]. *)
Definition communicate (p : popen) : M (option string * option string) :=
  ret (None, None).

Definition rejection_error (kind : dns_rejection) : exn_class :=
  match kind with
  | BadEncoding => UnicodeError
  | BadValue => ValueError
  | BadType => TypeError
  end.

(** [socket.gethostbyaddr(ip)]; an argument that is turned down costs no
    query. *)
Definition socket_gethostbyaddr (ip : string)
  : M (string * list string * list string) :=
  let* env := ask in
  match resolver env ip with
  | DnsOk h => let* _ := tell (EvGetHostByAddr ip) in ret h
  | DnsFail herror msg => let* _ := tell (EvGetHostByAddr ip) in raise socket_herror msg
  | DnsFail gaierror msg => let* _ := tell (EvGetHostByAddr ip) in raise socket_gaierror msg
  | DnsReject kind msg => raise (rejection_error kind) msg
  end.

Record response := Response { status_code : Z }.

(** [requests.get(url, timeout=t)] *)
Definition requests_get (url : string) (timeout : Z) : M response :=
  let* env := ask in
  let* _ := tell (EvHttpGet url timeout) in
  match http env url with
  | HttpResponse code => ret (Response code)
  | HttpFail ConnectionError msg => raise requests_ConnectionError msg
  | HttpFail Timeout msg => raise requests_Timeout msg
  | HttpFail InvalidURL msg => raise requests_InvalidURL msg
  end.

End Os.

(** Modelled from the spec: the module [src/logger.py], from which
    [logger] is imported, is not among the sources. The spec has logging
    as a process-wide side effect that records each outcome; a call is
    modelled as one [EvLog] entry in the trace, with the message and the
    extra positional arguments as passed, and it never raises. *)
Module logger.
Definition info (msg : string) : M unit := tell (EvLog INFO msg []).
Definition error (msg : string) : M unit := tell (EvLog ERROR msg []).
Definition error_args (msg : string) (args : list string) : M unit :=
  tell (EvLog ERROR msg args).
End logger.

(** [repr] of a string, of a list of strings and of the triple that
    [gethostbyaddr] returns, and [str] of an exception, as the f-strings
    of the source need them (quotes inside a string are not escaped). *)
Definition repr_str (s : string) : string := "'" +:+ s +:+ "'".
Definition repr_list (l : list string) : string :=
  "[" +:+ Str.join ", " (repr_str <$> l) +:+ "]".
Definition repr_hostent (h : string * list string * list string) : string :=
  let '(name, aliases, addrs) := h in
  "(" +:+ repr_str name +:+ ", " +:+ repr_list aliases +:+ ", " +:+ repr_list addrs +:+ ")".
Definition str_exn (e : exn) : string := exn_msg e.

(* ===================================================================== *)
(** ** The program: [vmware_task.py] *)
(* ===================================================================== *)

(** An address reaches the operations as the Python value the caller
    passes, an address object or a string; where the source applies
    [str()] or an f-string to it, so does the translation.

    A [try] statement whose clauses contain [return] is translated into a
    computation that says how the statement was left: [Some r] (or
    [inr r]) when a clause returned [r], [None] (or [inl v], with the
    value bound in the body) when control falls through to the code after
    the statement. *)

(** [class Implementation(ABC)]: the five abstract methods. *)
Module Implementation.
Record t := Build {
  validate_path : string → M bool;
  create_text_file : string → M bool;
  ping_url : Os.pyval → M bool;
  request_and_get : Os.pyval → M bool;
  run_test_batch : string → M bool
}.
End Implementation.

(** [class WindowsImplementation(Implementation)], with [os.path] and
    [pathlib] of Windows. *)
Module WindowsImplementation.

Definition validate_path (file_path : string) : M bool :=
  let* found := Os.os_path_exists nt file_path in
  if found then
    let* writable := Os.os_access_W_OK nt (Path.os_path_dirname nt file_path) in
    if writable then ret true else ret false
  else ret false.

Definition create_text_file (path : string) : M bool :=
  let* valid := validate_path path in
  if negb valid then
    raise OSError "File path does not exist or no permissions to write"
  else
    let file_name := Path.pathlib_Path nt [Path.os_path_dirname nt path; "Hello.txt"] in
    let* returned :=
      try_except
        (let* _ := Os.with_open_w nt file_name (λ f, Os.f_write f "Hello") in
         ret None)
        [ (FileExistsError,
           λ _, let* _ := logger.info "File already exists" in ret (Some false));
          (OSError,
           λ _, let* _ := logger.error "Error creating file" in ret (Some false)) ] in
    match returned with
    | Some r => ret r
    | None => ret true
    end.

Definition ping_url (ip : Os.pyval) : M bool :=
  let command := [Os.PyStr "ping"; Os.PyStr "-n"; Os.PyStr "1"; ip] in
  let* status := Os.subprocess_call command in
  ret (bool_decide (status = 0)).

Definition request_and_get (ip : Os.pyval) : M bool :=
  let* looked_up :=
    try_except
      (let* dns_ptr := Os.socket_gethostbyaddr (Os.py_str ip) in ret (inl dns_ptr))
      [ (OSError,
         λ e, let* _ := logger.error
                          (Os.py_str ip +:+ " does not has a valid dns ptr "
                           +:+ str_exn e +:+ " ") in
              ret (inr false)) ] in
  match looked_up with
  | inr r => ret r
  | inl dns_ptr =>
      let* _ := logger.info ("dns_ptr is " +:+ repr_hostent dns_ptr) in
      let* fetched :=
        try_except
          (let* result := Os.requests_get ("http://" +:+ dns_ptr.1.1) 10 in
           ret (inl result))
          [ (RequestException,
             λ e, let* _ := logger.error ("Error getting url " +:+ str_exn e) in
                  ret (inr false)) ] in
      match fetched with
      | inr r => ret r
      | inl result =>
          let* _ := logger.info ("Status code " +:+ pretty (Os.status_code result)) in
          ret true
      end
  end.

Definition run_test_batch (file_name : string) : M bool :=
  let* cwd := Os.os_getcwd nt in
  let* _ := logger.info ("Executing " +:+ file_name +:+ " at " +:+ cwd) in
  let* is_file := Os.os_path_isfile nt file_name in
  if is_file then
    try_except
      (let* p := Os.subprocess_Popen file_name (Os.PyStr cwd) in
       let* _ := Os.communicate p in
       ret true)
      [ (CalledProcessError,
         λ e, let* _ := logger.error
                          ("Error executing " +:+ file_name +:+ " at " +:+ cwd) in
              ret false) ]
  else
    let* _ := logger.error ("File " +:+ file_name +:+ " does not exist") in
    ret false.

Definition self : Implementation.t :=
  Implementation.Build validate_path create_text_file ping_url
                       request_and_get run_test_batch.

End WindowsImplementation.

(** [class LinuxMacImplementation(Implementation)], with [os.path] and
    [pathlib] of POSIX. *)
Module LinuxMacImplementation.

Definition validate_path (file_path : string) : M bool :=
  let* found := Os.os_path_exists posix file_path in
  if found then ret true else ret false.

Definition create_text_file (path : string) : M bool :=
  let* valid := validate_path path in
  if negb valid then
    let* _ := logger.error "File path does not exist" in
    ret false
  else
    let file_name := Path.pathlib_Path posix [path; "Hello.txt"] in
    let* returned :=
      try_except
        (let* _ := Os.with_open_w posix file_name (λ f, Os.f_write f "Hello") in
         ret None)
        [ (FileExistsError,
           λ _, let* _ := logger.info "File already exists. No need to create again" in
                ret (Some true));
          (PermissionError,
           λ _, let* _ := logger.error "You don't have permission to write the file" in
                ret (Some false));
          (OSError,
           λ e, let* _ := logger.error_args "Error creating file" [str_exn e] in
                ret (Some false)) ] in
    match returned with
    | Some r => ret r
    | None => ret true
    end.

Definition ping_url (ip : Os.pyval) : M bool :=
  let* response := Os.os_system ("ping -c 1 " +:+ Os.py_str ip) in
  if bool_decide (response = 0) then ret true else ret false.

Definition request_and_get (ip : Os.pyval) : M bool :=
  let* looked_up :=
    try_except
      (let* dns_ptr := Os.socket_gethostbyaddr (Os.py_str ip) in ret (inl dns_ptr))
      [ (OSError,
         λ e, let* _ := logger.error
                          (Os.py_str ip +:+ " does not has a valid dns ptr "
                           +:+ str_exn e +:+ " ") in
              ret (inr false)) ] in
  match looked_up with
  | inr r => ret r
  | inl dns_ptr =>
      let* _ := logger.info ("dns_ptr is " +:+ repr_hostent dns_ptr) in
      let* fetched :=
        try_except
          (let* result := Os.requests_get ("http://" +:+ dns_ptr.1.1) 10 in
           ret (inl result))
          [ (RequestException,
             λ e, let* _ := logger.error ("Error getting url " +:+ str_exn e) in
                  ret (inr false)) ] in
      match fetched with
      | inr r => ret r
      | inl result =>
          let* _ := logger.info ("Status code " +:+ pretty (Os.status_code result)) in
          ret true
      end
  end.

Definition run_test_batch (file_name : string) : M bool :=
  let* _ := logger.info ("Executing " +:+ file_name) in
  let* is_file := Os.os_path_isfile posix file_name in
  if is_file then
    try_except
      (let* _ := Os.os_system ("sh " +:+ file_name) in
       ret true)
      [ (OSError,
         λ e, let* _ := logger.error
                          ("Error trying to run " +:+ file_name +:+ " " +:+ str_exn e) in
              ret false) ]
  else
    let* _ := logger.error ("File " +:+ file_name +:+ " does not exist") in
    ret false.

Definition self : Implementation.t :=
  Implementation.Build validate_path create_text_file ping_url
                       request_and_get run_test_batch.

End LinuxMacImplementation.

(** [class VmwareTask]: holds the implementation and passes every call
    on to it. *)
Module VmwareTask.
Record t := Build { implementation : Implementation.t }.

Definition create_text_file (self : t) (file_path : string) : M bool :=
  Implementation.create_text_file (implementation self) file_path.
Definition ping_url (self : t) (ip : Os.pyval) : M bool :=
  Implementation.ping_url (implementation self) ip.
Definition request_and_get (self : t) (ip : Os.pyval) : M bool :=
  Implementation.request_and_get (implementation self) ip.
Definition run_test_batch (self : t) (file_name : string) : M bool :=
  Implementation.run_test_batch (implementation self) file_name.
End VmwareTask.

(** [run_tasks]: control logic for all the process. *)
Definition run_tasks (task : VmwareTask.t) (file_path : string) (ip : Os.pyval)
    (file_name : string) : M bool :=
  let success := true in
  let* created := VmwareTask.create_text_file task file_path in
  let* success :=
    if negb created then
      let* _ := logger.error "Error creating text file" in ret false
    else
      let* _ := logger.info "Success creating text file " in ret success in
  let* pinged := VmwareTask.ping_url task ip in
  let* success :=
    if negb pinged then
      let* _ := logger.error "Ping failed" in ret false
    else
      let* _ := logger.info "Success pinging" in ret success in
  let* fetched := VmwareTask.request_and_get task ip in
  let* success :=
    if negb fetched then
      let* _ := logger.error "Request get failed" in ret false
    else
      let* _ := logger.info "Success requesting and getting" in ret success in
  let* ran := VmwareTask.run_test_batch task file_name in
  let* success :=
    if negb ran then
      let* _ := logger.error "Running test batch failed" in ret false
    else
      let* _ := logger.info "Success running test batch" in ret success in
  ret success.

(* ===================================================================== *)
(** ** Reading traces *)
(* ===================================================================== *)

(** What a computation added to the trace. *)
Definition new_events (st st' : state) : list event :=
  drop (length (trace st)) (trace st').

Definition no_spawn (evs : list event) : Prop := ∀ argv, EvSpawn argv ∉ evs.
Definition no_open (evs : list event) : Prop := ∀ p, EvOpenW p ∉ evs.
Definition no_access_check (evs : list event) : Prop := ∀ p r, EvAccessW p r ∉ evs.

(** Every attempt to open a file for writing comes after each of the
    events [checks]. *)
Definition write_only_after (checks : list event) (evs : list event) : Prop :=
  ∀ pre p post, evs = pre ++ EvOpenW p :: post → ∀ c, c ∈ checks → c ∈ pre.

(** [p] names a regular file in the state [st]. *)
Definition names_file (fl : flavour) (env : environ) (st : state) (p : string) : bool :=
  match Os.stat fl (cwd env) (fs st) p with Some (File _ _) => true | _ => false end.

(** [p] names some node, file or directory. *)
Definition names_node (fl : flavour) (env : environ) (st : state) (p : string) : bool :=
  bool_decide (is_Some (Os.stat fl (cwd env) (fs st) p)).

(** The node a path string leads to, if look-up gets that far. *)
Definition locate (fl : flavour) (env : environ) (st : state) (p : string) : option fskey :=
  if decide (p = "") then None
  else if Str.has_nul p then None
  else Os.resolve fl (cwd env) (fs st) (Path.parse fl p).

(* ===================================================================== *)
(** ** What the operations do, in closed form *)
(* ===================================================================== *)

(** What the reverse-DNS step and the HTTP step leave in the trace. *)
Definition dns_failed_events (ip msg : string) : list event :=
  [ EvGetHostByAddr ip;
    EvLog ERROR (ip +:+ " does not has a valid dns ptr " +:+ msg +:+ " ") [] ].

Definition http_events (ip : string) (h : string * list string * list string)
    (last : event) : list event :=
  [ EvGetHostByAddr ip;
    EvLog INFO ("dns_ptr is " +:+ repr_hostent h) [];
    EvHttpGet ("http://" +:+ h.1.1) 10;
    last ].

(** How a call on the address text [ip] ends and the events it adds,
    case by case on what the resolver and the web answer. *)
Definition request_and_get_result (ip : string) (env : environ)
  : outcome bool * list event :=
  match resolver env ip with
  | DnsReject kind msg => (Raise (Exn (Os.rejection_error kind) msg), [])
  | DnsFail _ msg => (Ret false, dns_failed_events ip msg)
  | DnsOk h =>
      match http env ("http://" +:+ h.1.1) with
      | HttpResponse code =>
          (Ret true, http_events ip h (EvLog INFO ("Status code " +:+ pretty code) []))
      | HttpFail _ msg =>
          (Ret false, http_events ip h (EvLog ERROR ("Error getting url " +:+ msg) []))
      end
  end.


(** What [open(p, "w")] decides: the location of the file it creates or
    truncates, or the class of the [OSError] it raises. *)
Definition open_w_verdict (fl : flavour) (wd : fskey) (m : gmap fskey node)
    (p : Path.purepath) : exn_class + fskey :=
  match Os.resolve fl wd m p with
  | None => inl FileNotFoundError
  | Some k =>
      match m !! k with
      | Some (Dir _) => inl IsADirectoryError
      | Some (File false _) => inl PermissionError
      | Some (File true _) => inr k
      | None =>
          match m !! take (length k - 1) k with
          | Some (Dir true) => inr k
          | Some (Dir false) => inl PermissionError
          | _ => inl FileNotFoundError
          end
      end
  end.

(** The state after [with open(p, "w") as f: f.write(data)] went through. *)
Definition written (fl : flavour) (p : Path.purepath) (k : fskey) (data : string)
    (st : state) : state :=
  State (<[k := File true data]> (fs st))
        (trace st ++ [ EvOpenW (Path.to_string fl p);
                       EvWrite (Path.to_string fl p) data;
                       EvClose (Path.to_string fl p) ]).

(** The log line of the handler that catches an exception of class [c]
    in the POSIX variant. *)
Definition posix_handler_log (c : exn_class) (name : string) : event :=
  if issubclass c FileExistsError then
    EvLog INFO "File already exists. No need to create again" []
  else if issubclass c PermissionError then
    EvLog ERROR "You don't have permission to write the file" []
  else EvLog ERROR "Error creating file" [name].

(** The exception with which the Windows variant turns a path down. *)
Definition windows_refusal : exn :=
  Exn OSError "File path does not exist or no permissions to write".

(** What [os.access(p, os.W_OK)] answers in the state [st]. *)
Definition access_flag (fl : flavour) (env : environ) (st : state) (p : string) : bool :=
  match Os.stat fl (cwd env) (fs st) p with
  | Some (Dir w) | Some (File w _) => w
  | None => false
  end.

(** The guard on the write as the spec words it: the write is attempted
    only after an existence check and a write-permission check of the
    given directory have both passed. *)
Definition checks_existence_and_permission (create_text_file : string → M bool)
    (path : string) (env : environ) (st : state) : Prop :=
  write_only_after [EvExists path true; EvAccessW path true]
                   (new_events st (create_text_file path env st).2).

(** The line run_tasks logs after a step. *)
Definition step_log (ok failed : string) (b : bool) : event :=
  if b then EvLog INFO ok [] else EvLog ERROR failed [].

(** Whether [Hello.txt] can be written in the directory that the path
    string [d] leads to: [d] leads to a directory, and the entry
    [Hello.txt] of it is a writable file, or is missing while the
    directory is writable. *)
Definition marker_writable (fl : flavour) (env : environ) (st : state) (d : string) : bool :=
  match locate fl env st d with
  | Some k =>
      match fs st !! k with
      | Some (Dir w) =>
          match fs st !! (k ++ ["Hello.txt"]) with
          | Some (File w' _) => w'
          | Some (Dir _) => false
          | None => w
          end
      | _ => false
      end
  | None => false
  end.

(** What a call of create_text_file that ended with [r] did to the file
    system of [st]: nothing, unless it returned True; then the entry
    [Hello.txt] of one directory, missing or a writable file before, is a
    file holding [Hello]. *)
Definition marker_effect (st : state) (r : outcome bool * state) : Prop :=
  (r.1 ≠ Ret true ∧ fs r.2 = fs st)
  ∨ (r.1 = Ret true
     ∧ ∃ k w, fs st !! k = Some (Dir w)
              ∧ (fs st !! (k ++ ["Hello.txt"]) = None
                 ∨ ∃ c, fs st !! (k ++ ["Hello.txt"]) = Some (File true c))
              ∧ fs r.2 = <[k ++ ["Hello.txt"] := File true "Hello"]> (fs st)).

(** The requests that leave the machine: reverse-DNS queries and HTTP
    GETs. *)
Definition is_request (ev : event) : bool :=
  match ev with
  | EvGetHostByAddr _ | EvHttpGet _ _ => true
  | _ => false
  end.

Definition requests_of (evs : list event) : list event :=
  filter (λ ev, is_request ev = true) evs.

(** What request_and_get sends for the address text, by what the
    resolver answers. *)
Definition request_traffic (text : string) (env : environ) : list event :=
  match resolver env text with
  | DnsOk h => [EvGetHostByAddr text; EvHttpGet ("http://" +:+ h.1.1) 10]
  | DnsFail _ _ => [EvGetHostByAddr text]
  | DnsReject _ _ => []
  end.


(** The processes started. *)
Definition spawned (evs : list event) : list (list string) :=
  omap (λ ev, match ev with EvSpawn argv => Some argv | _ => None end) evs.

Global Instance termination_eq_dec : EqDecision termination.
Proof. solve_decision. Defined.

(** The child that the POSIX variant starts for a ping: the shell, on
    the command line [ping -c 1 <str(ip)>]. *)
Definition posix_ping_child (ip : Os.pyval) : list string :=
  ["sh"; "-c"; "ping -c 1 " +:+ Os.py_str ip].

(** The child that the POSIX variant starts for the batch file. *)
Definition posix_batch_child (file_name : string) : list string :=
  ["sh"; "-c"; "sh " +:+ file_name].


(** The process that an attempt to run [argv] started, if any. *)
Definition started (l : launch) (argv : list string) : list (list string) :=
  match l with
  | Ran _ _ => [argv]
  | NotStarted _ _ => []
  end.

(** The file system after an attempt to run a program on [m]. *)
Definition left_by (l : launch) (m : gmap fskey node) : gmap fskey node :=
  match l with
  | Ran _ after => after
  | NotStarted _ _ => m
  end.

(** No character of [p] is a path separator. *)
Fixpoint sep_free (fl : flavour) (p : string) : bool :=
  match p with
  | "" => true
  | String c p' => negb (Path.is_sep fl c) && sep_free fl p'
  end.

(* ===================================================================== *)
(** ** Sample worlds *)
(* ===================================================================== *)

Module Sample.

(** The two addresses of the tests, given as strings. *)
Definition good_ip : Os.pyval := Os.PyStr "187.188.112.16".
Definition bad_ip : Os.pyval := Os.PyStr "125.88.88.99".

(** The same address as the object that [ipaddress.ip_address] makes. *)
Definition good_address : Os.pyval := Os.PyAddress Os.IPv4 "187.188.112.16".

(** An address with a zone identifier, as [IPv6Address] accepts it. *)
Definition zoned_address : Os.pyval := Os.PyAddress Os.IPv6 "::1%a || true".

(** An address whose zone identifier has 70 characters. *)
Definition long_zone_address : Os.pyval :=
  Os.PyAddress Os.IPv6
    "::1%aaaaaaaaaaaaaaaaaaaaaaaaaaaaaaaaaaaaaaaaaaaaaaaaaaaaaaaaaaaaaaaaaaaaaa".

(** The programs of the sample machines: [ping] gets an answer from
    [187.188.112.16] alone, [true] does nothing and succeeds, and the
    script [test.sh] leaves a log beside itself and exits with 3. *)
Definition program (argv : list string) (m : gmap fskey node) : launch :=
  match argv with
  | ["ping"; "-n"; "1"; host] | ["ping"; "-c"; "1"; host] =>
      Ran (if decide (host = "187.188.112.16") then Exited 0 else Exited 1) m
  | ["true"] => Ran (Exited 0) m
  | ["sh"; "test.sh"] =>
      Ran (Exited 3) (<[["home"; "flopezlira"; "test.log"] := File true "run"]> m)
  | _ => NotStarted NoSuchProgram (default "" (head argv))
  end.

(** The words of a command line, cut at each [||]. *)
Fixpoint alternatives (cur : list string) (ws : list string) : list (list string) :=
  match ws with
  | [] => [reverse cur]
  | w :: ws' =>
      if decide (w = "||") then reverse cur :: alternatives [] ws'
      else alternatives (w :: cur) ws'
  end.

Definition run_simple (argv : list string) (m : gmap fskey node)
  : termination * gmap fskey node :=
  match program argv m with
  | Ran ended after => (ended, after)
  | NotStarted _ _ => (Exited 127, m)
  end.

(** The shell on simple commands joined by [||]: each is run in turn
    until one exits with status 0; the status is that of the last one
    run. *)
Fixpoint run_alternatives (cmds : list (list string)) (m : gmap fskey node)
  : termination * gmap fskey node :=
  match cmds with
  | [] => (Exited 0, m)
  | [c] => run_simple c m
  | c :: rest =>
      match run_simple c m with
      | (Exited 0, m') => (Exited 0, m')
      | (_, m') => run_alternatives rest m'
      end
  end.

Definition processes (argv : list string) (m : gmap fskey node) : launch :=
  match argv with
  | ["sh"; "-c"; cmd] =>
      let '(ended, after) := run_alternatives (alternatives [] (String.words cmd)) m in
      Ran ended after
  | _ => program argv m
  end.

(** A network in which [187.188.112.16] has a PTR record and its host
    serves HTTP (with a 404), while nothing else does. *)
Definition ptr (ip : string) : dns_outcome :=
  if decide (ip = "187.188.112.16") then
    DnsOk ("host.example.net", [], ["187.188.112.16"])
  else if existsb (λ label, bool_decide (64 ≤ String.length label)%nat)
                  (Str.split (λ c, bool_decide (c = "."%char)) ip) then
    DnsReject BadEncoding "label empty or too long"
  else DnsFail herror "Unknown host".

Definition web (url : string) : http_outcome :=
  if decide (url = "http://host.example.net") then HttpResponse 404
  else HttpFail ConnectionError "Max retries exceeded".

Definition bs : string := Path.sep nt.

(** A Windows machine: [C:\], [C:\Users], [C:\Users\bob] and a batch
    file in the working directory [C:\Users]. *)
Definition win_env : environ := Environ ["C:"; "Users"] processes ptr web.
Definition win_fs : gmap fskey node :=
  list_to_map [ (["C:"], Dir true);
                (["C:"; "Users"], Dir true);
                (["C:"; "Users"; "bob"], Dir true);
                (["C:"; "Users"; "test.bat"], File true "echo ok") ].
Definition win : state := State win_fs [].

Definition c_root : string := "C:" +:+ bs.
Definition c_home2 : string := "C:" +:+ bs +:+ "home2".
Definition c_users_bob : string := "C:" +:+ bs +:+ "Users" +:+ bs +:+ "bob".

(** A POSIX machine: [/home/flopezlira] with a script in it, and a
    directory [/ro] without write permission. *)
Definition posix_env : environ := Environ ["home"; "flopezlira"] processes ptr web.
Definition posix_fs : gmap fskey node :=
  list_to_map [ ([], Dir false);
                (["home"], Dir true);
                (["home"; "flopezlira"], Dir true);
                (["home"; "flopezlira"; "test.sh"], File true "echo ok");
                (["ro"], Dir false) ].
Definition psx : state := State posix_fs [].

Definition windows_task : VmwareTask.t := VmwareTask.Build WindowsImplementation.self.
Definition posix_task : VmwareTask.t := VmwareTask.Build LinuxMacImplementation.self.

End Sample.

(* ===================================================================== *)
(** ** Evaluating computations *)
(* ===================================================================== *)

Ltac mstep :=
  unfold bind, ret, raise, tell, ask, get_fs, put_fs, try_except,
    logger.info, logger.error, logger.error_args; simpl.

(** Closes [x ∉ [e1; ...; en]] when [x] differs from every [ei] by its
    constructor. *)
Ltac absent :=
  repeat (apply not_elem_of_cons; split; [discriminate|]); apply not_elem_of_nil.

(** Closes [x ∈ [e1; ...; en]] when [x] is one of the [ei]. *)
Ltac present :=
  solve [repeat first [apply list_elem_of_here | apply list_elem_of_further]].

(** Case analysis on a membership [H : x ∈ [e1; ...; en]]. *)
Ltac members H :=
  repeat (apply elem_of_cons in H as [H|H]; [simplify_eq/=|]);
  try (by apply elem_of_nil in H).

(** [os.path.dirname] and [pathlib] on the paths used below. *)
Example dirname_nested :
  Path.os_path_dirname nt ("C:" +:+ Path.sep nt +:+ "Users" +:+ Path.sep nt +:+ "bob")
  = "C:" +:+ Path.sep nt +:+ "Users".
Proof. reflexivity. Qed.

Example dirname_drive_root :
  Path.os_path_dirname nt ("C:" +:+ Path.sep nt) = "C:" +:+ Path.sep nt.
Proof. reflexivity. Qed.

Example dirname_trailing_sep :
  Path.os_path_dirname nt ("C:/Users/bob/") = "C:/Users/bob".
Proof. reflexivity. Qed.

Example dirname_relative : Path.os_path_dirname nt "work" = "".
Proof. reflexivity. Qed.

Example path_join_posix :
  Path.pathlib_Path posix ["/home//flopezlira/"; "Hello.txt"]
  = Path.PurePath "" true ["home"; "flopezlira"; "Hello.txt"].
Proof. reflexivity. Qed.

(** Parsing [str(p)] gives the path object [p] back, on the marker paths
    of the sample worlds. *)
Example marker_path_round_trip :
  let w := Path.pathlib_Path nt [Path.os_path_dirname nt Sample.c_users_bob; "Hello.txt"] in
  let r := Path.pathlib_Path nt [Path.os_path_dirname nt Sample.c_root; "Hello.txt"] in
  let u := Path.pathlib_Path posix ["/home/flopezlira"; "Hello.txt"] in
  Path.parse nt (Path.to_string nt w) = w
  ∧ Path.parse nt (Path.to_string nt r) = r
  ∧ Path.parse posix (Path.to_string posix u) = u.
Proof. repeat split; by vm_compute. Qed.

(** A regular file is not found under its name followed by a separator
    or by [/.]. *)
Example stat_file_as_directory :
  Os.stat posix ["home"; "flopezlira"] Sample.posix_fs "test.sh" = Some (File true "echo ok")
  ∧ Os.stat posix ["home"; "flopezlira"] Sample.posix_fs "test.sh/" = None
  ∧ Os.stat posix ["home"; "flopezlira"] Sample.posix_fs "/home/flopezlira/test.sh/." = None
  ∧ Os.stat posix ["home"; "flopezlira"] Sample.posix_fs "/home/flopezlira/." = Some (Dir true)
  ∧ Os.stat nt ["C:"; "Users"] Sample.win_fs ("test.bat" +:+ Sample.bs) = None.
Proof. repeat split; vm_compute; reflexivity. Qed.

Lemma new_events_app st st' evs :
  trace st' = trace st ++ evs → new_events st st' = evs.
Proof. intros E. unfold new_events. rewrite E. by rewrite drop_app_length. Qed.

Lemma new_events_emit1 st e1 : new_events st (emit e1 st) = [e1].
Proof. by apply new_events_app. Qed.

Lemma new_events_emit2 st e1 e2 : new_events st (emit e2 (emit e1 st)) = [e1; e2].
Proof. apply new_events_app. simpl. by rewrite <- app_assoc. Qed.

Lemma new_events_emit3 st e1 e2 e3 :
  new_events st (emit e3 (emit e2 (emit e1 st))) = [e1; e2; e3].
Proof. apply new_events_app. simpl. by rewrite <- !app_assoc. Qed.

Lemma new_events_emit4 st e1 e2 e3 e4 :
  new_events st (emit e4 (emit e3 (emit e2 (emit e1 st)))) = [e1; e2; e3; e4].
Proof. apply new_events_app. simpl. by rewrite <- !app_assoc. Qed.

(* ===================================================================== *)
(** ** ping_url *)
(* ===================================================================== *)

Lemma shiftl8_zero c : Z.shiftl c 8 = 0 ↔ c = 0.
Proof. rewrite Z.shiftl_eq_0_iff; [done | lia]. Qed.

Lemma new_events_same st : new_events st st = [].
Proof. apply new_events_app. by rewrite app_nil_r. Qed.

Lemma new_events_set_fs st st' m : new_events st (set_fs m st') = new_events st st'.
Proof. reflexivity. Qed.

(** WindowsImplementation.ping_url, evaluated: only a string without NUL
    gets as far as starting [ping -n 1 <ip>]. *)
Lemma windows_ping_url_eval ip env st :
  WindowsImplementation.ping_url ip env st =
  match ip with
  | Os.PyStr text =>
      if Str.has_nul text then (Raise (Exn ValueError "embedded null character"), st)
      else
        match run_process env ["ping"; "-n"; "1"; text] (fs st) with
        | NotStarted why msg => (Raise (Exn (Os.launch_error why) msg), st)
        | Ran ended after =>
            (Ret (bool_decide (ended = Exited 0)),
             set_fs after (emit (EvSpawn ["ping"; "-n"; "1"; text]) st))
        end
  | _ => (Raise (Exn TypeError ("expected str, bytes or os.PathLike object, not "
                                +:+ Os.type_name ip)), st)
  end.
Proof.
  unfold WindowsImplementation.ping_url, Os.subprocess_call.
  destruct ip as [n|text|version text]; try reflexivity.
  cbn [Os.as_arguments existsb Str.has_nul].
  change (Str.has_nul "ping") with false. change (Str.has_nul "-n") with false.
  change (Str.has_nul "1") with false.
  rewrite orb_false_r. simpl.
  destruct (Str.has_nul text); [reflexivity|].
  unfold Os.spawn_and_wait. mstep.
  destruct (run_process env _ (fs st)) as [why msg|ended after]; [reflexivity|].
  simpl. f_equal. f_equal.
  destruct ended as [c|sg]; simpl.
  - apply bool_decide_ext. split; [by intros ->|by intros [= ->]].
  - reflexivity.
Qed.

Lemma has_nul_app a b : Str.has_nul (a +:+ b) = Str.has_nul a || Str.has_nul b.
Proof. induction a as [|c a IH]; [done|]. simpl. by rewrite IH, orb_assoc. Qed.

(** LinuxMacImplementation.ping_url, evaluated: the verdict is that of
    the shell on the command line [ping -c 1 <str(ip)>]. *)
Lemma posix_ping_url_eval ip env st :
  LinuxMacImplementation.ping_url ip env st =
  if Str.has_nul (Os.py_str ip) then (Raise (Exn ValueError "embedded null byte"), st)
  else
    match run_process env (posix_ping_child ip) (fs st) with
    | NotStarted _ _ => (Ret false, st)
    | Ran ended after =>
        (Ret (bool_decide (ended = Exited 0)),
         set_fs after (emit (EvSpawn (posix_ping_child ip)) st))
    end.
Proof.
  unfold LinuxMacImplementation.ping_url, Os.os_system, posix_ping_child.
  rewrite has_nul_app. change (Str.has_nul "ping -c 1 ") with false. rewrite orb_false_l.
  destruct (Str.has_nul (Os.py_str ip)); [reflexivity|].
  mstep.
  destruct (run_process env _ (fs st)) as [why msg|ended after]; [reflexivity|].
  simpl. destruct ended as [c|sg]; simpl.
  - destruct (bool_decide_reflect (Z.shiftl c 8 = 0)) as [H|H].
    + apply shiftl8_zero in H as ->. reflexivity.
    + rewrite bool_decide_eq_false_2; [reflexivity|].
      intros [= ->]. by destruct H.
  - reflexivity.
Qed.

(** C9. Given the address as the object that its annotation names (an
    [IPv4Address] or [IPv6Address], whatever its text), the Windows
    ping_url raises [TypeError] on every machine and starts no process:
    line 101 puts the object into the argument vector as it is, where
    the POSIX variant and both variants of request_and_get apply
    [str()]. So it does not return Success when [ping -n 1] of that
    address would exit with status zero. *)
Theorem windows_ping_url_address_object
    (version : Os.ip_version) (text : string) (env : environ) (st : state) :
  WindowsImplementation.ping_url (Os.PyAddress version text) env st
  = (Raise (Exn TypeError
              ("expected str, bytes or os.PathLike object, not "
               +:+ match version with
                   | Os.IPv4 => "IPv4Address"
                   | Os.IPv6 => "IPv6Address"
                   end)), st).
Proof.
  rewrite windows_ping_url_eval. by destruct version.
Qed.

(** On the sample Windows machine: the address as a string is pinged and
    answers; the same address as an object is not pinged at all. *)
Example windows_ping_url_on_sample :
  WindowsImplementation.ping_url Sample.good_ip Sample.win_env Sample.win
  = (Ret true, emit (EvSpawn ["ping"; "-n"; "1"; "187.188.112.16"]) Sample.win)
  ∧ WindowsImplementation.ping_url Sample.good_address Sample.win_env Sample.win
    = (Raise (Exn TypeError "expected str, bytes or os.PathLike object, not IPv4Address"),
       Sample.win).
Proof. split; vm_compute; reflexivity. Qed.

(** In the POSIX variant the text of the address is part of a shell
    command line. With the zone identifier [a || true] the shell runs
    [ping -c 1 ::1%a], which fails, and then [true]: ping_url returns
    True although ping exited with status 1. *)
Example posix_ping_url_runs_what_the_address_says :
  Sample.program ["ping"; "-c"; "1"; "::1%a"] Sample.posix_fs
  = Ran (Exited 1) Sample.posix_fs
  ∧ LinuxMacImplementation.ping_url Sample.zoned_address Sample.posix_env Sample.psx
    = (Ret true, emit (EvSpawn ["sh"; "-c"; "ping -c 1 ::1%a || true"]) Sample.psx).
Proof. split; vm_compute; reflexivity. Qed.

(** Given the address as a string, on a machine where ping can be
    started, the Windows variant does return True exactly when
    [ping -n 1 <ip>] exits with status zero. *)
Lemma windows_ping_url_of_text text env st ended after :
  Str.has_nul text = false →
  run_process env ["ping"; "-n"; "1"; text] (fs st) = Ran ended after →
  WindowsImplementation.ping_url (Os.PyStr text) env st
  = (Ret (bool_decide (ended = Exited 0)),
     set_fs after (emit (EvSpawn ["ping"; "-n"; "1"; text]) st)).
Proof. intros Hn Hr. rewrite windows_ping_url_eval, Hn, Hr. reflexivity. Qed.

(* ===================================================================== *)
(** ** request_and_get *)
(* ===================================================================== *)

Lemma windows_request_and_get_eval ip env st :
  ∃ st', WindowsImplementation.request_and_get ip env st
           = ((request_and_get_result (Os.py_str ip) env).1, st')
         ∧ fs st' = fs st
         ∧ new_events st st' = (request_and_get_result (Os.py_str ip) env).2.
Proof.
  unfold WindowsImplementation.request_and_get, request_and_get_result,
    Os.socket_gethostbyaddr, Os.requests_get.
  mstep.
  destruct (resolver env (Os.py_str ip)) as [h|[] msg|[] msg]; simpl;
    try (eexists; split; [reflexivity|]; split; [done|]; apply new_events_emit2);
    try (eexists; split; [reflexivity|]; split; [done|]; apply new_events_same).
  destruct (http env _) as [code|[] msg]; simpl;
    eexists; (split; [reflexivity|]); (split; [done|]); apply new_events_emit4.
Qed.







(** C10. The two variants of request_and_get are the same function: for
    every address and every answer of the resolver and of the web they
    return the same result and leave the same state, trace of requests
    included. *)
Theorem request_and_get_variants_equal (ip : Os.pyval) (env : environ) (st : state) :
  WindowsImplementation.request_and_get ip env st
  = LinuxMacImplementation.request_and_get ip env st.
Proof.
  unfold WindowsImplementation.request_and_get, LinuxMacImplementation.request_and_get.
  reflexivity.
Qed.

(* ===================================================================== *)
(** ** run_test_batch *)
(* ===================================================================== *)

Lemma no_spawn_batch_missing_windows w file_name :
  no_spawn [ EvLog INFO ("Executing " +:+ file_name +:+ " at " +:+ w) [];
             EvIsFile file_name false;
             EvLog ERROR ("File " +:+ file_name +:+ " does not exist") [] ].
Proof. intros argv. absent. Qed.

Lemma no_spawn_batch_missing_posix file_name :
  no_spawn [ EvLog INFO ("Executing " +:+ file_name) [];
             EvIsFile file_name false;
             EvLog ERROR ("File " +:+ file_name +:+ " does not exist") [] ].
Proof. intros argv. absent. Qed.

(** C8. In both variants, for a path that does not name an existing
    file, run_test_batch returns Failure, starts no child process and
    leaves the file system as it was. *)
Theorem run_test_batch_missing_file (file_name : string) (env : environ) (st : state) :
  (names_file nt env st file_name = false →
     ∃ st', WindowsImplementation.run_test_batch file_name env st = (Ret false, st')
            ∧ no_spawn (new_events st st') ∧ fs st' = fs st)
  ∧
  (names_file posix env st file_name = false →
     ∃ st', LinuxMacImplementation.run_test_batch file_name env st = (Ret false, st')
            ∧ no_spawn (new_events st st') ∧ fs st' = fs st).
Proof.
  unfold names_file. split; intros Hno.
  - unfold WindowsImplementation.run_test_batch, Os.os_path_isfile, Os.os_getcwd.
    mstep. rewrite Hno. simpl.
    eexists. split; [reflexivity|]. split; [|done].
    rewrite new_events_emit3. apply no_spawn_batch_missing_windows.
  - unfold LinuxMacImplementation.run_test_batch, Os.os_path_isfile.
    mstep. rewrite Hno. simpl.
    eexists. split; [reflexivity|]. split; [|done].
    rewrite new_events_emit3. apply no_spawn_batch_missing_posix.
Qed.

Lemma run_test_batch_missing_file_witness :
  (∃ st', WindowsImplementation.run_test_batch "test2.bat" Sample.win_env Sample.win
            = (Ret false, st')
          ∧ no_spawn (new_events Sample.win st') ∧ fs st' = fs Sample.win)
  ∧ (∃ st', LinuxMacImplementation.run_test_batch "test2.bat" Sample.posix_env Sample.psx
              = (Ret false, st')
            ∧ no_spawn (new_events Sample.psx st') ∧ fs st' = fs Sample.psx).
Proof.
  destruct (run_test_batch_missing_file "test2.bat" Sample.win_env Sample.win) as [HW _].
  destruct (run_test_batch_missing_file "test2.bat" Sample.posix_env Sample.psx) as [_ HL].
  split; [apply HW | apply HL]; reflexivity.
Defined.

(* ===================================================================== *)
(** ** Opening and writing the marker file *)
(* ===================================================================== *)

Lemma open_w_eval fl p env st :
  Os.open_w fl p env st =
  match open_w_verdict fl (cwd env) (fs st) p with
  | inr k => (Ret (Os.FileObj k (Path.to_string fl p)),
              set_fs (<[k := File true ""]> (fs st))
                     (emit (EvOpenW (Path.to_string fl p)) st))
  | inl c => (Raise (Exn c (Path.to_string fl p)),
              emit (EvOpenW (Path.to_string fl p)) st)
  end.
Proof.
  unfold Os.open_w, open_w_verdict. mstep.
  destruct (Os.resolve fl (cwd env) (fs st) p) as [k|]; [|done].
  destruct (fs st !! k) as [[w|[] c]|]; try done.
  destruct (fs st !! take (length k - 1) k) as [[[]|]|]; done.
Qed.

(** Every exception of [open(p, "w")] is an [OSError], and none is a
    [FileExistsError]. *)
Lemma open_w_verdict_class fl wd m p c :
  open_w_verdict fl wd m p = inl c →
  c = FileNotFoundError ∨ c = IsADirectoryError ∨ c = PermissionError.
Proof.
  unfold open_w_verdict.
  repeat case_match; intros; simplify_eq; auto.
Qed.

Lemma open_w_never_FileExistsError fl p env st e st' :
  Os.open_w fl p env st = (Raise e, st') → exn_cls e ≠ FileExistsError.
Proof.
  rewrite open_w_eval.
  destruct (open_w_verdict fl (cwd env) (fs st) p) as [c|k] eqn:E; [|done].
  intros [= <- _]. simpl.
  apply open_w_verdict_class in E as [->|[->| ->]]; done.
Qed.

Lemma with_open_w_write_eval fl p data env st :
  Os.with_open_w fl p (λ f, Os.f_write f data) env st =
  match open_w_verdict fl (cwd env) (fs st) p with
  | inr k => (Ret tt, written fl p k data st)
  | inl c => (Raise (Exn c (Path.to_string fl p)),
              emit (EvOpenW (Path.to_string fl p)) st)
  end.
Proof.
  unfold Os.with_open_w, bind. rewrite open_w_eval.
  destruct (open_w_verdict fl (cwd env) (fs st) p) as [c|k]; [done|].
  unfold Os.f_write. mstep. rewrite lookup_insert_eq. simpl.
  unfold written, emit, set_fs. simpl.
  rewrite insert_insert_eq, <- !app_assoc. reflexivity.
Qed.


Lemma posix_handler_log_is_log c name :
  ∃ lvl msg args, posix_handler_log c name = EvLog lvl msg args.
Proof. unfold posix_handler_log. repeat case_match; eauto. Qed.

(** LinuxMacImplementation.create_text_file, evaluated. *)
Lemma posix_create_text_file_eval path env st :
  LinuxMacImplementation.create_text_file path env st =
  if names_node posix env st path then
    let p := Path.pathlib_Path posix [path; "Hello.txt"] in
    let st1 := emit (EvExists path true) st in
    match open_w_verdict posix (cwd env) (fs st) p with
    | inr k => (Ret true, written posix p k "Hello" st1)
    | inl c => (Ret false,
                emit (posix_handler_log c (Path.to_string posix p))
                     (emit (EvOpenW (Path.to_string posix p)) st1))
    end
  else
    (Ret false,
     emit (EvLog ERROR "File path does not exist" []) (emit (EvExists path false) st)).
Proof.
  unfold LinuxMacImplementation.create_text_file, LinuxMacImplementation.validate_path,
    Os.os_path_exists, names_node.
  unfold bind at 1 2 3 4 5. unfold ask, get_fs, tell, ret at 1 2 3. simpl.
  destruct (bool_decide (is_Some (Os.stat posix (cwd env) (fs st) path))); simpl.
  - unfold bind, try_except. rewrite with_open_w_write_eval. simpl.
    destruct (open_w_verdict posix (cwd env) (fs st) _) as [c|k] eqn:E; [|done].
    apply open_w_verdict_class in E as [->|[->| ->]]; reflexivity.
  - reflexivity.
Qed.

(** WindowsImplementation.create_text_file, evaluated. *)
Lemma windows_create_text_file_eval path env st :
  WindowsImplementation.create_text_file path env st =
  let d := Path.os_path_dirname nt path in
  if names_node nt env st path then
    let st1 := emit (EvExists path true) st in
    if access_flag nt env st d then
      let p := Path.pathlib_Path nt [d; "Hello.txt"] in
      let st2 := emit (EvAccessW d true) st1 in
      match open_w_verdict nt (cwd env) (fs st) p with
      | inr k => (Ret true, written nt p k "Hello" st2)
      | inl c => (Ret false,
                  emit (EvLog ERROR "Error creating file" [])
                       (emit (EvOpenW (Path.to_string nt p)) st2))
      end
    else (Raise windows_refusal, emit (EvAccessW d false) st1)
  else (Raise windows_refusal, emit (EvExists path false) st).
Proof.
  unfold WindowsImplementation.create_text_file, WindowsImplementation.validate_path,
    Os.os_path_exists, Os.os_access_W_OK, names_node, access_flag.
  unfold bind at 1 2 3 4 5. unfold ask, get_fs, tell, ret at 1 2 3. simpl.
  destruct (bool_decide (is_Some (Os.stat nt (cwd env) (fs st) path))); simpl; [|done].
  unfold bind at 1 2 3 4 5. unfold ask, get_fs, tell, ret at 1 2 3. simpl.
  destruct (match Os.stat nt (cwd env) (fs st) (Path.os_path_dirname nt path) with
            | Some (Dir w) | Some (File w _) => w
            | None => false
            end); simpl; [|done].
  unfold bind, try_except. rewrite with_open_w_write_eval. simpl.
  destruct (open_w_verdict nt (cwd env) (fs st) _) as [c|k] eqn:E; [|done].
  apply open_w_verdict_class in E as [->|[->| ->]]; reflexivity.
Qed.

(* ===================================================================== *)
(** ** Where the marker file goes *)
(* ===================================================================== *)

Lemma walk_app fl m cur ps qs :
  Os.walk fl m cur (ps ++ qs) = k ← Os.walk fl m cur ps; Os.walk fl m k qs.
Proof.
  revert cur. induction ps as [|c ps IH]; intros cur; simpl; [done|].
  destruct (m !! cur) as [[w|w s]|]; simpl; auto.
Qed.

Lemma joinpath_empty b :
  Path.joinpath (Path.PurePath "" false []) b = b.
Proof.
  destruct b as [d r ps]. unfold Path.joinpath. simpl.
  destruct (bool_decide_reflect (d = "")) as [->|]; simpl; [|done].
  by destruct r.
Qed.

(** [pathlib.Path(d, "Hello.txt")] is [d], parsed, with one more
    component. *)
Lemma marker_path fl d :
  Path.pathlib_Path fl [d; "Hello.txt"] =
  Path.PurePath (Path.drive (Path.parse fl d)) (Path.root (Path.parse fl d))
                (Path.parts (Path.parse fl d) ++ ["Hello.txt"]).
Proof.
  unfold Path.pathlib_Path. simpl. rewrite joinpath_empty.
  assert (Path.parse fl "Hello.txt" = Path.PurePath "" false ["Hello.txt"]) as ->
    by (by destruct fl).
  reflexivity.
Qed.

(** Look-up of the marker path: look up the directory, then enter it. *)
Lemma resolve_marker fl wd m d :
  Os.resolve fl wd m (Path.pathlib_Path fl [d; "Hello.txt"]) =
  k ← Os.resolve fl wd m (Path.parse fl d);
  match m !! k with
  | Some (Dir _) => Some (k ++ ["Hello.txt"])
  | _ => None
  end.
Proof.
  rewrite marker_path. unfold Os.resolve. simpl.
  rewrite walk_app.
  assert (Os.start fl wd
            (Path.PurePath (Path.drive (Path.parse fl d)) (Path.root (Path.parse fl d))
               (Path.parts (Path.parse fl d) ++ ["Hello.txt"]))
          = Os.start fl wd (Path.parse fl d)) as -> by (by destruct fl).
  destruct (Os.walk fl m _ (Path.parts (Path.parse fl d))) as [k|]; simpl; [|done].
  by destruct (m !! k) as [[w|w s]|].
Qed.

Lemma take_pred_snoc {A} (k : list A) (x : A) :
  take (length (k ++ [x]) - 1) (k ++ [x]) = k.
Proof.
  rewrite length_app. simpl.
  replace (length k + 1 - 1)%nat with (length k) by lia.
  by rewrite take_app_length.
Qed.

(** When opening the marker path succeeds, the file is the entry
    [Hello.txt] of the directory that [d] leads to. *)
Lemma open_marker_inside fl wd m d k' :
  open_w_verdict fl wd m (Path.pathlib_Path fl [d; "Hello.txt"]) = inr k' →
  ∃ k w, Os.resolve fl wd m (Path.parse fl d) = Some k
         ∧ m !! k = Some (Dir w)
         ∧ k' = k ++ ["Hello.txt"].
Proof.
  unfold open_w_verdict. rewrite resolve_marker.
  destruct (Os.resolve fl wd m (Path.parse fl d)) as [k|]; simpl; [|done].
  destruct (m !! k) as [[w|w s]|] eqn:Ek; try done.
  intros H. exists k, w. split; [done|]. split; [done|].
  destruct (m !! (k ++ ["Hello.txt"])) as [[w'|[] s]|]; simplify_eq; try done.
  rewrite take_pred_snoc, Ek in H. by destruct w; simplify_eq.
Qed.

(** What [os.stat] finds is what the parsed path leads to. *)
Lemma stat_found fl wd m p n :
  Os.stat fl wd m p = Some n →
  p ≠ "" ∧ Str.has_nul p = false
  ∧ ∃ k, Os.resolve fl wd m (Path.parse fl p) = Some k ∧ m !! k = Some n.
Proof.
  unfold Os.stat. destruct (decide (p = "")); [done|].
  destruct (Str.has_nul p); [done|].
  destruct (Os.resolve fl wd m (Path.parse fl p)) as [k|]; simpl; [|done].
  destruct (m !! k) as [n'|] eqn:E; simpl; [|done].
  destruct n'; [|destruct (Path.ends_in_directory fl p)];
    intros ?; simplify_eq; eauto.
Qed.

(** A directory is found whatever the path string ends in. *)
Lemma stat_directory fl wd m p k w :
  p ≠ "" → Str.has_nul p = false →
  Os.resolve fl wd m (Path.parse fl p) = Some k → m !! k = Some (Dir w) →
  Os.stat fl wd m p = Some (Dir w).
Proof.
  intros Hne Hnul Hk Hd. unfold Os.stat.
  rewrite decide_False, Hnul by done. rewrite Hk. simpl. by rewrite Hd.
Qed.

Lemma names_node_found fl env st p :
  names_node fl env st p = true →
  p ≠ "" ∧ Str.has_nul p = false
  ∧ ∃ k n, locate fl env st p = Some k ∧ fs st !! k = Some n.
Proof.
  unfold names_node. intros [n Hn]%bool_decide_eq_true.
  apply stat_found in Hn as (Hne & Hnul & k & Hk & Hf).
  split; [done|]. split; [done|]. exists k, n. split; [|done].
  unfold locate. by rewrite decide_False, Hnul.
Qed.

Lemma names_node_nonempty fl env st p : names_node fl env st p = true → p ≠ "".
Proof. by intros (? & _)%names_node_found. Qed.

(** On POSIX, a successful create_text_file changes the file system in
    one place only: the entry [Hello.txt] of the directory that the given
    path leads to now is a file holding [Hello]. *)
Lemma posix_create_text_file_success path env st st' :
  LinuxMacImplementation.create_text_file path env st = (Ret true, st') →
  ∃ k w, locate posix env st path = Some k
         ∧ fs st !! k = Some (Dir w)
         ∧ fs st' = <[k ++ ["Hello.txt"] := File true "Hello"]> (fs st).
Proof.
  rewrite posix_create_text_file_eval.
  destruct (names_node posix env st path) eqn:Hn; [|done].
  apply names_node_found in Hn as (Hne & Hnul & _). simpl.
  destruct (open_w_verdict posix _ _ _) as [c|k'] eqn:E; [done|].
  intros [= <-].
  apply open_marker_inside in E as (k & w & Hk & Hd & ->).
  exists k, w. unfold locate. rewrite decide_False, Hnul by done. done.
Qed.

(** On Windows the same holds of the directory that
    [os.path.dirname(path)] leads to. *)
Lemma windows_create_text_file_success path env st st' :
  WindowsImplementation.create_text_file path env st = (Ret true, st') →
  ∃ k w, Os.resolve nt (cwd env) (fs st) (Path.parse nt (Path.os_path_dirname nt path))
           = Some k
         ∧ fs st !! k = Some (Dir w)
         ∧ fs st' = <[k ++ ["Hello.txt"] := File true "Hello"]> (fs st).
Proof.
  rewrite windows_create_text_file_eval. simpl.
  destruct (names_node nt env st path); [|done].
  destruct (access_flag nt env st _); [|done].
  destruct (open_w_verdict nt _ _ _) as [c|k'] eqn:E; [done|].
  intros [= <-].
  apply open_marker_inside in E as (k & w & Hk & Hd & ->).
  by exists k, w.
Qed.

(* ===================================================================== *)
(** ** create_text_file *)
(* ===================================================================== *)

Lemma new_events_raw st m evs :
  new_events st {| fs := m; trace := trace st ++ evs |} = evs.
Proof. by apply new_events_app. Qed.

(** Brings the state a call ended in to the form [trace st ++ evs] and
    reads off [evs]. *)
Ltac read_events :=
  unfold written, emit, set_fs; simpl;
  repeat rewrite <- app_assoc; simpl;
  rewrite ?new_events_raw.

(** Splits a trace equation [evs = pre ++ EvOpenW p :: post] over an
    explicit [evs] into the possible positions of the opening. *)
Ltac split_trace :=
  repeat match goal with
         | H : _ = ?pre ++ EvOpenW _ :: _ |- _ => destruct pre; simpl in H; simplify_eq
         end.

(** The write is attempted without a passed write-permission check of
    the given directory: by the POSIX variant for [/ro], which exists and
    is not writable, after the existence check alone; by the Windows
    variant for [C:\Users\bob], after a check of [C:\Users]. *)
Lemma write_without_permission_check_of_the_directory :
  ¬ checks_existence_and_permission LinuxMacImplementation.create_text_file
      "/ro" Sample.posix_env Sample.psx
  ∧ ¬ checks_existence_and_permission WindowsImplementation.create_text_file
        Sample.c_users_bob Sample.win_env Sample.win.
Proof.
  unfold checks_existence_and_permission. split; intros H.
  - specialize (H [EvExists "/ro" true] "/ro/Hello.txt"
                  [EvLog ERROR "You don't have permission to write the file" []]).
    assert (EvAccessW "/ro" true ∈ [EvExists "/ro" true]) as Hin.
    { apply H; [by vm_compute|]. present. }
    apply list_elem_of_singleton in Hin. discriminate.
  - set (dir := "C:" +:+ Sample.bs +:+ "Users").
    set (name := dir +:+ Sample.bs +:+ "Hello.txt").
    specialize (H [EvExists Sample.c_users_bob true; EvAccessW dir true] name
                  [EvWrite name "Hello"; EvClose name]).
    assert (EvAccessW Sample.c_users_bob true
            ∈ [EvExists Sample.c_users_bob true; EvAccessW dir true]) as Hin.
    { apply H; [vm_compute; reflexivity|]. present. }
    vm_compute in Hin. members Hin.
Qed.

(** C5, amended. Both variants check that the given path exists before
    any write, and attempt the write only if it does. The Windows variant
    attempts the write only after a write-permission check has passed as
    well; the POSIX variant makes no write-permission check before the
    write. *)
Theorem create_text_file_checks_before_write (path : string) (env : environ) (st : state) :
  (let st' := (LinuxMacImplementation.create_text_file path env st).2 in
   write_only_after [EvExists path true] (new_events st st')
   ∧ no_access_check (new_events st st'))
  ∧
  (let st' := (WindowsImplementation.create_text_file path env st).2 in
   ∃ d, write_only_after [EvExists path true; EvAccessW d true] (new_events st st')).
Proof.
  split.
  - rewrite posix_create_text_file_eval.
    destruct (names_node posix env st path); simpl.
    + destruct (open_w_verdict posix _ _ _) as [c|k]; simpl;
        [destruct (posix_handler_log_is_log c
                     (Path.to_string posix (Path.pathlib_Path posix [path; "Hello.txt"])))
           as (lvl & msg & args & ->)|];
        read_events.
      * split; [|intros p r; absent].
        intros pre p post E ev Hev. split_trace. members Hev; present.
      * split; [|intros p r; absent].
        intros pre p post E ev Hev. split_trace. members Hev; present.
    + read_events. split; [|intros p r; absent].
      intros pre p post E. split_trace.
  - rewrite windows_create_text_file_eval.
    exists (Path.os_path_dirname nt path). simpl.
    destruct (names_node nt env st path); simpl.
    + destruct (access_flag nt env st _); simpl.
      * destruct (open_w_verdict nt _ _ _) as [c|k]; simpl; read_events;
          intros pre p post E ev Hev; split_trace; members Hev; present.
      * read_events. intros pre p post E. split_trace.
    + read_events. intros pre p post E. split_trace.
Qed.

(** On the sample machines both variants attempt a write, each after
    the checks it makes. *)
Lemma create_text_file_checks_before_write_witness :
  EvExists "/ro" true ∈ [EvExists "/ro" true]
  ∧ ∃ d, EvAccessW d true
         ∈ [EvExists Sample.c_root true; EvAccessW Sample.c_root true].
Proof.
  destruct (create_text_file_checks_before_write "/ro" Sample.posix_env Sample.psx)
    as [[Hposix _] _].
  destruct (create_text_file_checks_before_write Sample.c_root Sample.win_env Sample.win)
    as [_ [d Hwin]].
  split.
  - apply (Hposix [EvExists "/ro" true] "/ro/Hello.txt"
                  [EvLog ERROR "You don't have permission to write the file" []]).
    + by vm_compute.
    + present.
  - exists d.
    apply (Hwin [EvExists Sample.c_root true; EvAccessW Sample.c_root true]
                (Sample.c_root +:+ "Hello.txt")
                [EvWrite (Sample.c_root +:+ "Hello.txt") "Hello";
                 EvClose (Sample.c_root +:+ "Hello.txt")]).
    + vm_compute; reflexivity.
    + present.
Defined.

(** C4. For a path that names nothing, no file is written and the file
    system stays as it was in both variants; the POSIX variant returns
    Failure, while the Windows variant raises [OSError] instead of
    returning. *)
Theorem create_text_file_missing_directory (path : string) (env : environ) (st : state) :
  (names_node nt env st path = false →
     ∃ st', WindowsImplementation.create_text_file path env st
              = (Raise windows_refusal, st')
            ∧ fs st' = fs st ∧ no_open (new_events st st'))
  ∧
  (names_node posix env st path = false →
     ∃ st', LinuxMacImplementation.create_text_file path env st = (Ret false, st')
            ∧ fs st' = fs st ∧ no_open (new_events st st')).
Proof.
  split; intros Hno.
  - rewrite windows_create_text_file_eval, Hno. simpl.
    eexists. split; [reflexivity|]. split; [done|].
    rewrite new_events_emit1. intros p. absent.
  - rewrite posix_create_text_file_eval, Hno.
    eexists. split; [reflexivity|]. split; [done|].
    rewrite new_events_emit2. intros p. absent.
Qed.

Lemma create_text_file_missing_directory_witness :
  (∃ st', WindowsImplementation.create_text_file Sample.c_home2 Sample.win_env Sample.win
            = (Raise windows_refusal, st')
          ∧ fs st' = fs Sample.win ∧ no_open (new_events Sample.win st'))
  ∧ (∃ st', LinuxMacImplementation.create_text_file
              "/home2/flopezlira" Sample.posix_env Sample.psx = (Ret false, st')
            ∧ fs st' = fs Sample.psx ∧ no_open (new_events Sample.psx st')).
Proof.
  destruct (create_text_file_missing_directory Sample.c_home2 Sample.win_env Sample.win)
    as [HW _].
  destruct (create_text_file_missing_directory
              "/home2/flopezlira" Sample.posix_env Sample.psx) as [_ HL].
  split; [apply HW | apply HL]; reflexivity.
Defined.

(** C3 on Windows. [C:\Users\bob] is an existing writable directory and
    create_text_file returns Success for it, yet no [Hello.txt] appears in
    it: the file is written into [C:\Users], the directory that
    [os.path.dirname] gives for a path without a trailing separator. *)
Theorem windows_marker_lands_in_parent :
  Os.stat nt (cwd Sample.win_env) (fs Sample.win) Sample.c_users_bob = Some (Dir true)
  ∧ locate nt Sample.win_env Sample.win Sample.c_users_bob = Some ["C:"; "Users"; "bob"]
  ∧ (WindowsImplementation.create_text_file
       Sample.c_users_bob Sample.win_env Sample.win).1 = Ret true
  ∧ fs (WindowsImplementation.create_text_file
          Sample.c_users_bob Sample.win_env Sample.win).2
      !! ["C:"; "Users"; "bob"; "Hello.txt"] = None
  ∧ fs (WindowsImplementation.create_text_file
          Sample.c_users_bob Sample.win_env Sample.win).2
      !! ["C:"; "Users"; "Hello.txt"] = Some (File true "Hello").
Proof. repeat split; by vm_compute. Qed.

(** With a trailing separator, or for a drive root, [os.path.dirname]
    gives the directory itself and the file is written where the POSIX
    variant writes it. *)
Example windows_marker_in_drive_root :
  (WindowsImplementation.create_text_file Sample.c_root Sample.win_env Sample.win).1
    = Ret true
  ∧ fs (WindowsImplementation.create_text_file Sample.c_root Sample.win_env Sample.win).2
      !! ["C:"; "Hello.txt"] = Some (File true "Hello").
Proof. split; by vm_compute. Qed.

(** C6 on Windows. After a first call has left [C:\Hello.txt] behind, a
    second call with the same path opens the file with mode ["w"], which
    truncates it, and returns Success: the [FileExistsError] clause never
    runs. *)
Theorem windows_existing_marker_is_overwritten :
  let first :=
    WindowsImplementation.create_text_file Sample.c_root Sample.win_env Sample.win in
  let second :=
    WindowsImplementation.create_text_file Sample.c_root Sample.win_env first.2 in
  first.1 = Ret true
  ∧ fs first.2 !! ["C:"; "Hello.txt"] = Some (File true "Hello")
  ∧ second.1 = Ret true
  ∧ EvLog INFO "File already exists" [] ∉ trace second.2.
Proof.
  simpl. repeat split; try by vm_compute.
  vm_compute. absent.
Qed.

(** In general: when the marker path leads to an existing writable file,
    both variants overwrite it and return Success; a read-only one makes
    both return Failure. *)
Lemma create_text_file_over_existing_marker path env st :
  (∀ k c, names_node nt env st path = true →
          access_flag nt env st (Path.os_path_dirname nt path) = true →
          Os.resolve nt (cwd env) (fs st)
            (Path.pathlib_Path nt [Path.os_path_dirname nt path; "Hello.txt"]) = Some k →
          fs st !! k = Some (File true c) →
          (WindowsImplementation.create_text_file path env st).1 = Ret true)
  ∧
  (∀ k w c, names_node posix env st path = true →
            Os.resolve posix (cwd env) (fs st)
              (Path.pathlib_Path posix [path; "Hello.txt"]) = Some k →
            fs st !! k = Some (File w c) →
            (LinuxMacImplementation.create_text_file path env st).1 = Ret w).
Proof.
  split.
  - intros k c Hn Ha Hk Hf. rewrite windows_create_text_file_eval. simpl.
    rewrite Hn, Ha. unfold open_w_verdict. by rewrite Hk, Hf.
  - intros k w c Hn Hk Hf. rewrite posix_create_text_file_eval. simpl.
    rewrite Hn. unfold open_w_verdict. rewrite Hk, Hf. by destruct w.
Qed.

(* ===================================================================== *)
(** ** Which operations can raise *)
(* ===================================================================== *)

(** The POSIX create_text_file always returns a boolean. *)
Lemma posix_create_text_file_returns path env st :
  ∃ b st', LinuxMacImplementation.create_text_file path env st = (Ret b, st').
Proof.
  rewrite posix_create_text_file_eval. cbv zeta. repeat case_match; eauto.
Qed.

Lemma names_file_no_nul fl env st p :
  names_file fl env st p = true → Str.has_nul p = false.
Proof.
  unfold names_file.
  destruct (Os.stat fl (cwd env) (fs st) p) as [n|] eqn:E; [|done].
  intros _. by apply stat_found in E as (_ & ? & _).
Qed.

(** LinuxMacImplementation.run_test_batch, evaluated: for an existing
    file the shell is started on [sh <file_name>], and whatever becomes
    of that, the result is True. *)
Lemma posix_run_test_batch_eval file_name env st :
  LinuxMacImplementation.run_test_batch file_name env st =
  let st1 := emit (EvIsFile file_name (names_file posix env st file_name))
                  (emit (EvLog INFO ("Executing " +:+ file_name) []) st) in
  if names_file posix env st file_name then
    match run_process env (posix_batch_child file_name) (fs st) with
    | NotStarted _ _ => (Ret true, st1)
    | Ran ended after =>
        (Ret true, set_fs after (emit (EvSpawn (posix_batch_child file_name)) st1))
    end
  else
    (Ret false, emit (EvLog ERROR ("File " +:+ file_name +:+ " does not exist") []) st1).
Proof.
  destruct (names_file posix env st file_name) eqn:Hf.
  - pose proof (names_file_no_nul _ _ _ _ Hf) as Hnul.
    unfold names_file in Hf.
    unfold LinuxMacImplementation.run_test_batch, Os.os_path_isfile, Os.os_system,
      posix_batch_child.
    rewrite has_nul_app. change (Str.has_nul "sh ") with false. rewrite Hnul.
    mstep. rewrite Hf. simpl.
    by destruct (run_process env _ (fs st)) as [why msg|ended after].
  - unfold names_file in Hf.
    unfold LinuxMacImplementation.run_test_batch, Os.os_path_isfile.
    mstep. by rewrite Hf.
Qed.

(** The Windows create_text_file raises whenever validate_path refuses
    the path. *)
Lemma windows_create_text_file_raises path env st :
  names_node nt env st path = false
  ∨ access_flag nt env st (Path.os_path_dirname nt path) = false →
  (WindowsImplementation.create_text_file path env st).1 = Raise windows_refusal.
Proof.
  rewrite windows_create_text_file_eval. simpl.
  intros [H|H].
  - by rewrite H.
  - rewrite H. by destruct (names_node nt env st path).
Qed.

(** The Windows run_test_batch raises [TypeError] for every existing
    file: the working directory, a string, is passed to [Popen] in the
    place of [bufsize], so no child process is ever started. *)
Lemma windows_run_test_batch_raises file_name env st :
  names_file nt env st file_name = true →
  ∃ st', WindowsImplementation.run_test_batch file_name env st
           = (Raise (Exn TypeError "bufsize must be an integer"), st')
         ∧ no_spawn (new_events st st').
Proof.
  unfold names_file. intros Hf.
  unfold WindowsImplementation.run_test_batch, Os.os_path_isfile, Os.os_getcwd,
    Os.subprocess_Popen.
  mstep. rewrite Hf. simpl.
  eexists. split; [reflexivity|].
  rewrite new_events_emit2. intros argv. absent.
Qed.

(** C2 on Windows. create_text_file, given the path [C:\home2] that does
    not exist, raises [OSError] instead of returning a boolean, and
    run_test_batch, given the existing file [test.bat], raises
    [TypeError]. *)
Theorem windows_operations_raise :
  (WindowsImplementation.create_text_file Sample.c_home2 Sample.win_env Sample.win).1
    = Raise (Exn OSError "File path does not exist or no permissions to write")
  ∧ (WindowsImplementation.run_test_batch "test.bat" Sample.win_env Sample.win).1
    = Raise (Exn TypeError "bufsize must be an integer").
Proof. split; by vm_compute. Qed.

(* ===================================================================== *)
(** ** run_tasks *)
(* ===================================================================== *)

(** Whenever the four operations return, run_tasks has called each of
    them once, in order, each on the state its predecessor left (plus the
    log line of that step), and returns the conjunction of the four
    results; a False result does not stop the later calls. *)
Lemma run_tasks_when_operations_return
    (task : VmwareTask.t) (file_path : string) (ip : Os.pyval) (file_name : string)
    (env : environ) (st st1 st2 st3 st4 : state) (b1 b2 b3 b4 : bool) :
  VmwareTask.create_text_file task file_path env st = (Ret b1, st1) →
  VmwareTask.ping_url task ip env
    (emit (step_log "Success creating text file " "Error creating text file" b1) st1)
    = (Ret b2, st2) →
  VmwareTask.request_and_get task ip env
    (emit (step_log "Success pinging" "Ping failed" b2) st2) = (Ret b3, st3) →
  VmwareTask.run_test_batch task file_name env
    (emit (step_log "Success requesting and getting" "Request get failed" b3) st3)
    = (Ret b4, st4) →
  run_tasks task file_path ip file_name env st
  = (Ret (b1 && b2 && b3 && b4),
     emit (step_log "Success running test batch" "Running test batch failed" b4) st4).
Proof.
  intros H1 H2 H3 H4. unfold run_tasks, step_log in *.
  unfold bind at 1. rewrite H1.
  destruct b1; mstep; rewrite H2;
    destruct b2; simpl; rewrite H3;
    destruct b3; simpl; rewrite H4;
    destruct b4; reflexivity.
Qed.

(** An exception of the first operation ends run_tasks at once. *)
Lemma run_tasks_first_raises task file_path ip file_name env st e st1 :
  VmwareTask.create_text_file task file_path env st = (Raise e, st1) →
  run_tasks task file_path ip file_name env st = (Raise e, st1).
Proof. intros H. unfold run_tasks. unfold bind at 1. by rewrite H. Qed.

(** C1 on Windows. With the Windows implementation and the missing
    directory [C:\home2], run_tasks does not return: the [OSError] of
    create_text_file passes through it, after the single existence check,
    and ping_url, request_and_get and run_test_batch are never called. *)
Theorem run_tasks_windows_missing_directory :
  run_tasks Sample.windows_task Sample.c_home2 Sample.bad_ip "test2.bat"
            Sample.win_env Sample.win
  = (Raise (Exn OSError "File path does not exist or no permissions to write"),
     emit (EvExists Sample.c_home2 false) Sample.win).
Proof. by vm_compute. Qed.

(** With the POSIX implementation the same inputs, invalid all three,
    give False after all four steps have run. *)
Example run_tasks_posix_all_invalid :
  let r := run_tasks Sample.posix_task "/home2/flopezlira" Sample.bad_ip "test2.bat"
                     Sample.posix_env Sample.psx in
  r.1 = Ret false
  ∧ trace r.2 =
    [ EvExists "/home2/flopezlira" false;
      EvLog ERROR "File path does not exist" [];
      EvLog ERROR "Error creating text file" [];
      EvSpawn ["sh"; "-c"; "ping -c 1 125.88.88.99"];
      EvLog ERROR "Ping failed" [];
      EvGetHostByAddr "125.88.88.99";
      EvLog ERROR "125.88.88.99 does not has a valid dns ptr Unknown host " [];
      EvLog ERROR "Request get failed" [];
      EvLog INFO "Executing test2.bat" [];
      EvIsFile "test2.bat" false;
      EvLog ERROR "File test2.bat does not exist" [];
      EvLog ERROR "Running test batch failed" [] ].
Proof. split; by vm_compute. Qed.

Example run_tasks_posix_all_valid :
  (run_tasks Sample.posix_task "/home/flopezlira" Sample.good_ip "test.sh"
             Sample.posix_env Sample.psx).1 = Ret true.
Proof. by vm_compute. Qed.

(* ===================================================================== *)
(** ** run_tasks over any implementation *)
(* ===================================================================== *)

Lemma run_tasks_second_raises task file_path ip file_name env st b1 st1 e st2 :
  VmwareTask.create_text_file task file_path env st = (Ret b1, st1) →
  VmwareTask.ping_url task ip env
    (emit (step_log "Success creating text file " "Error creating text file" b1) st1)
    = (Raise e, st2) →
  run_tasks task file_path ip file_name env st = (Raise e, st2).
Proof.
  intros H1 H2. unfold run_tasks, step_log in *.
  unfold bind at 1. rewrite H1.
  destruct b1; mstep; by rewrite H2.
Qed.

Lemma run_tasks_third_raises task file_path ip file_name env st b1 st1 b2 st2 e st3 :
  VmwareTask.create_text_file task file_path env st = (Ret b1, st1) →
  VmwareTask.ping_url task ip env
    (emit (step_log "Success creating text file " "Error creating text file" b1) st1)
    = (Ret b2, st2) →
  VmwareTask.request_and_get task ip env
    (emit (step_log "Success pinging" "Ping failed" b2) st2) = (Raise e, st3) →
  run_tasks task file_path ip file_name env st = (Raise e, st3).
Proof.
  intros H1 H2 H3. unfold run_tasks, step_log in *.
  unfold bind at 1. rewrite H1.
  destruct b1; mstep; rewrite H2; destruct b2; simpl; by rewrite H3.
Qed.

Lemma run_tasks_fourth_raises
    task file_path ip file_name env st b1 st1 b2 st2 b3 st3 e st4 :
  VmwareTask.create_text_file task file_path env st = (Ret b1, st1) →
  VmwareTask.ping_url task ip env
    (emit (step_log "Success creating text file " "Error creating text file" b1) st1)
    = (Ret b2, st2) →
  VmwareTask.request_and_get task ip env
    (emit (step_log "Success pinging" "Ping failed" b2) st2) = (Ret b3, st3) →
  VmwareTask.run_test_batch task file_name env
    (emit (step_log "Success requesting and getting" "Request get failed" b3) st3)
    = (Raise e, st4) →
  run_tasks task file_path ip file_name env st = (Raise e, st4).
Proof.
  intros H1 H2 H3 H4. unfold run_tasks, step_log in *.
  unfold bind at 1. rewrite H1.
  destruct b1; mstep; rewrite H2; destruct b2; simpl; rewrite H3;
    destruct b3; simpl; by rewrite H4.
Qed.

(** X1. For any implementation: when the four operations return, run_tasks
    has run each of them once, in the order create_text_file, ping_url,
    request_and_get, run_test_batch, each on the state its predecessor
    left plus the log line of that step; it returns True exactly when all
    four returned True, and a False result stops nothing. *)
Theorem run_tasks_returns_conjunction
    (task : VmwareTask.t) (file_path : string) (ip : Os.pyval) (file_name : string)
    (env : environ) (st st1 st2 st3 st4 : state) (b1 b2 b3 b4 : bool) :
  VmwareTask.create_text_file task file_path env st = (Ret b1, st1) →
  VmwareTask.ping_url task ip env
    (emit (step_log "Success creating text file " "Error creating text file" b1) st1)
    = (Ret b2, st2) →
  VmwareTask.request_and_get task ip env
    (emit (step_log "Success pinging" "Ping failed" b2) st2) = (Ret b3, st3) →
  VmwareTask.run_test_batch task file_name env
    (emit (step_log "Success requesting and getting" "Request get failed" b3) st3)
    = (Ret b4, st4) →
  ∃ b, run_tasks task file_path ip file_name env st
       = (Ret b,
          emit (step_log "Success running test batch" "Running test batch failed" b4) st4)
       ∧ (b = true ↔ b1 = true ∧ b2 = true ∧ b3 = true ∧ b4 = true).
Proof.
  intros H1 H2 H3 H4. exists (b1 && b2 && b3 && b4). split.
  - by apply (run_tasks_when_operations_return task _ _ _ _ _ st1 st2 st3 st4).
  - rewrite !andb_true_iff. tauto.
Qed.

(** In the sample POSIX world the directory [/ro] is not writable while
    the address and the script are fine: the first step fails, the other
    three run and succeed, and run_tasks returns False. *)
Lemma run_tasks_returns_conjunction_witness :
  (run_tasks Sample.posix_task "/ro" Sample.good_ip "test.sh"
             Sample.posix_env Sample.psx).1 = Ret false.
Proof.
  pose proof (run_tasks_returns_conjunction
                Sample.posix_task "/ro" Sample.good_ip "test.sh" Sample.posix_env
                Sample.psx
                (LinuxMacImplementation.create_text_file "/ro" Sample.posix_env Sample.psx).2
                _ _ _ false true true true eq_refl eq_refl eq_refl eq_refl)
    as (b & E & Hb).
  rewrite E. destruct b; [|reflexivity].
  destruct Hb as [Hb _]. destruct (Hb eq_refl) as [Hfalse _]. discriminate Hfalse.
Defined.

(** X2. For any implementation: an exception raised by one of the four
    operations leaves run_tasks unchanged and at once; the state is the
    one the raising operation left, so no later operation has run and no
    further line is logged. *)
Theorem run_tasks_passes_exceptions_on
    (task : VmwareTask.t) (file_path : string) (ip : Os.pyval) (file_name : string)
    (env : environ) (st : state) :
  (∀ e st1,
     VmwareTask.create_text_file task file_path env st = (Raise e, st1) →
     run_tasks task file_path ip file_name env st = (Raise e, st1))
  ∧ (∀ b1 st1 e st2,
     VmwareTask.create_text_file task file_path env st = (Ret b1, st1) →
     VmwareTask.ping_url task ip env
       (emit (step_log "Success creating text file " "Error creating text file" b1) st1)
       = (Raise e, st2) →
     run_tasks task file_path ip file_name env st = (Raise e, st2))
  ∧ (∀ b1 st1 b2 st2 e st3,
     VmwareTask.create_text_file task file_path env st = (Ret b1, st1) →
     VmwareTask.ping_url task ip env
       (emit (step_log "Success creating text file " "Error creating text file" b1) st1)
       = (Ret b2, st2) →
     VmwareTask.request_and_get task ip env
       (emit (step_log "Success pinging" "Ping failed" b2) st2) = (Raise e, st3) →
     run_tasks task file_path ip file_name env st = (Raise e, st3))
  ∧ (∀ b1 st1 b2 st2 b3 st3 e st4,
     VmwareTask.create_text_file task file_path env st = (Ret b1, st1) →
     VmwareTask.ping_url task ip env
       (emit (step_log "Success creating text file " "Error creating text file" b1) st1)
       = (Ret b2, st2) →
     VmwareTask.request_and_get task ip env
       (emit (step_log "Success pinging" "Ping failed" b2) st2) = (Ret b3, st3) →
     VmwareTask.run_test_batch task file_name env
       (emit (step_log "Success requesting and getting" "Request get failed" b3) st3)
       = (Raise e, st4) →
     run_tasks task file_path ip file_name env st = (Raise e, st4)).
Proof.
  repeat split; intros.
  - by apply run_tasks_first_raises.
  - by eapply run_tasks_second_raises.
  - by eapply run_tasks_third_raises.
  - by eapply run_tasks_fourth_raises.
Qed.

(** On the sample Windows machine the first three steps succeed for
    [C:\], the reachable address (given as a string) and [test.bat], and
    the [TypeError] of the fourth is what run_tasks ends with. *)
Lemma run_tasks_passes_exceptions_on_witness :
  ∃ st', run_tasks Sample.windows_task Sample.c_root Sample.good_ip "test.bat"
                   Sample.win_env Sample.win
         = (Raise (Exn TypeError "bufsize must be an integer"), st').
Proof.
  destruct (run_tasks_passes_exceptions_on
              Sample.windows_task Sample.c_root Sample.good_ip "test.bat"
              Sample.win_env Sample.win) as (_ & _ & _ & H4).
  set (r1 := WindowsImplementation.create_text_file Sample.c_root Sample.win_env Sample.win).
  set (r2 := WindowsImplementation.ping_url Sample.good_ip Sample.win_env
               (emit (EvLog INFO "Success creating text file " []) r1.2)).
  set (r3 := WindowsImplementation.request_and_get Sample.good_ip Sample.win_env
               (emit (EvLog INFO "Success pinging" []) r2.2)).
  set (r4 := WindowsImplementation.run_test_batch "test.bat" Sample.win_env
               (emit (EvLog INFO "Success requesting and getting" []) r3.2)).
  exists r4.2.
  apply (H4 true r1.2 true r2.2 true r3.2); vm_compute; reflexivity.
Defined.

(* ===================================================================== *)
(** ** run_test_batch, every case *)
(* ===================================================================== *)

Lemma windows_run_test_batch_not_true file_name env st :
  (WindowsImplementation.run_test_batch file_name env st).1 ≠ Ret true.
Proof.
  unfold WindowsImplementation.run_test_batch, Os.os_path_isfile, Os.os_getcwd,
    Os.subprocess_Popen.
  mstep. by case_match.
Qed.

(** X3. The Windows run_test_batch never starts a process and never
    returns True: for an existing file it raises [TypeError] (the working
    directory is passed to [Popen] in the place of [bufsize]), for
    anything else it returns False; the file system is left as it was. *)
Theorem windows_run_test_batch_outcome (file_name : string) (env : environ) (st : state) :
  ∃ st', WindowsImplementation.run_test_batch file_name env st
           = (if names_file nt env st file_name
              then Raise (Exn TypeError "bufsize must be an integer")
              else Ret false, st')
         ∧ fs st' = fs st
         ∧ spawned (new_events st st') = [].
Proof.
  unfold WindowsImplementation.run_test_batch, Os.os_path_isfile, Os.os_getcwd,
    Os.subprocess_Popen, names_file.
  mstep.
  destruct (match Os.stat nt (cwd env) (fs st) file_name with
            | Some (File _ _) => true
            | _ => false
            end); simpl.
  - eexists. split; [reflexivity|]. split; [done|]. by rewrite new_events_emit2.
  - eexists. split; [reflexivity|]. split; [done|]. by rewrite new_events_emit3.
Qed.

(** X4. The POSIX run_test_batch never raises and returns True exactly
    when the path names an existing file. For such a file it starts one
    child, the shell on the command line [sh <file_name>], and does not
    look at how that ends: the result is True whatever the exit status,
    and the file system is afterwards what the child left. For anything
    else nothing is started and the file system stays as it was. *)
Theorem posix_run_test_batch_outcome (file_name : string) (env : environ) (st : state) :
  let child := run_process env (posix_batch_child file_name) (fs st) in
  ∃ st', LinuxMacImplementation.run_test_batch file_name env st
           = (Ret (names_file posix env st file_name), st')
         ∧ fs st' = (if names_file posix env st file_name
                     then left_by child (fs st) else fs st)
         ∧ spawned (new_events st st')
           = (if names_file posix env st file_name
              then started child (posix_batch_child file_name) else []).
Proof.
  rewrite posix_run_test_batch_eval. cbv zeta.
  destruct (names_file posix env st file_name).
  - destruct (run_process env _ (fs st)) as [why msg|ended after];
      (eexists; split; [reflexivity|]; split; [done|]).
    + by rewrite new_events_emit2.
    + rewrite new_events_set_fs. by rewrite new_events_emit3.
  - eexists. split; [reflexivity|]. split; [done|]. by rewrite new_events_emit3.
Qed.

(** On the sample machine [test.sh] writes a log, ends with exit status
    3, and run_test_batch returns True all the same. *)
Example posix_run_test_batch_failing_script :
  let r := LinuxMacImplementation.run_test_batch "test.sh" Sample.posix_env Sample.psx in
  Sample.processes ["sh"; "-c"; "sh test.sh"] Sample.posix_fs
  = Ran (Exited 3) (<[["home"; "flopezlira"; "test.log"] := File true "run"]> Sample.posix_fs)
  ∧ r.1 = Ret true
  ∧ fs r.2 !! ["home"; "flopezlira"; "test.log"] = Some (File true "run").
Proof. repeat split; vm_compute; reflexivity. Qed.

(* ===================================================================== *)
(** ** run_tasks with each implementation *)
(* ===================================================================== *)

(** X5. With the Windows implementation run_tasks never returns True,
    whatever the inputs and the machine: either an operation raises, or
    run_test_batch, which cannot return True, makes the result False. *)
Theorem run_tasks_windows_never_true
    (file_path : string) (ip : Os.pyval) (file_name : string)
    (env : environ) (st : state) :
  (run_tasks (VmwareTask.Build WindowsImplementation.self)
             file_path ip file_name env st).1 ≠ Ret true.
Proof.
  set (task := VmwareTask.Build WindowsImplementation.self).
  destruct (VmwareTask.create_text_file task file_path env st) as [[b1|e] st1] eqn:E1.
  2: { by rewrite (run_tasks_first_raises _ _ _ _ _ _ _ _ E1). }
  destruct (VmwareTask.ping_url task ip env
              (emit (step_log "Success creating text file " "Error creating text file" b1) st1))
    as [[b2|e] st2] eqn:E2.
  2: { by rewrite (run_tasks_second_raises task _ _ _ _ _ b1 st1 e st2). }
  destruct (VmwareTask.request_and_get task ip env
              (emit (step_log "Success pinging" "Ping failed" b2) st2))
    as [[b3|e] st3] eqn:E3.
  2: { by rewrite (run_tasks_third_raises task _ _ _ _ _ b1 st1 b2 st2 e st3). }
  pose proof (windows_run_test_batch_not_true file_name env
                (emit (step_log "Success requesting and getting" "Request get failed" b3) st3))
    as Hnot.
  destruct (WindowsImplementation.run_test_batch file_name env
              (emit (step_log "Success requesting and getting" "Request get failed" b3) st3))
    as [[b4|e] st4] eqn:E4.
  - rewrite (run_tasks_when_operations_return task _ _ _ _ _ st1 st2 st3 st4 b1 b2 b3 b4)
      by done.
    destruct b4; [done|]. simpl. by rewrite !andb_false_r.
  - by rewrite (run_tasks_fourth_raises task _ _ _ _ _ b1 st1 b2 st2 b3 st3 e st4).
Qed.

(** X6. Which POSIX operations can raise. create_text_file and
    run_test_batch return a boolean for every argument on every machine.
    ping_url raises [ValueError] when the text of the address holds a
    NUL, and request_and_get lets through what [socket.gethostbyaddr]
    raises when it turns the text down ([UnicodeError] for a label that
    is too long, say), which is no [OSError]. An exception that run_tasks
    ends with is one that ping_url or request_and_get raised. *)
Theorem linuxmac_what_can_raise
    (file_path : string) (ip : Os.pyval) (file_name : string)
    (env : environ) (st : state) :
  (∃ b st', LinuxMacImplementation.create_text_file file_path env st = (Ret b, st'))
  ∧ (∃ b st', LinuxMacImplementation.run_test_batch file_name env st = (Ret b, st'))
  ∧ (Str.has_nul (Os.py_str ip) = true →
     LinuxMacImplementation.ping_url ip env st
     = (Raise (Exn ValueError "embedded null byte"), st))
  ∧ (∀ kind msg, resolver env (Os.py_str ip) = DnsReject kind msg →
     LinuxMacImplementation.request_and_get ip env st
     = (Raise (Exn (Os.rejection_error kind) msg), st))
  ∧ (∀ e st', run_tasks (VmwareTask.Build LinuxMacImplementation.self)
                        file_path ip file_name env st = (Raise e, st') →
     ∃ st0, LinuxMacImplementation.ping_url ip env st0 = (Raise e, st')
            ∨ LinuxMacImplementation.request_and_get ip env st0 = (Raise e, st')).
Proof.
  split; [apply posix_create_text_file_returns|].
  split.
  { rewrite posix_run_test_batch_eval. cbv zeta. repeat case_match; eauto. }
  split.
  { intros Hnul. by rewrite posix_ping_url_eval, Hnul. }
  split.
  { intros kind msg Hdns.
    unfold LinuxMacImplementation.request_and_get, Os.socket_gethostbyaddr.
    mstep. rewrite Hdns. by destruct kind. }
  intros e st' Hrun.
  set (task := VmwareTask.Build LinuxMacImplementation.self) in *.
  destruct (posix_create_text_file_returns file_path env st) as (b1 & st1 & E1).
  set (l1 := emit (step_log "Success creating text file " "Error creating text file" b1)
                  st1).
  destruct (LinuxMacImplementation.ping_url ip env l1) as [[b2|e2] st2] eqn:E2.
  2: { rewrite (run_tasks_second_raises task _ _ _ _ _ b1 st1 e2 st2 E1 E2) in Hrun.
       simplify_eq. exists l1. by left. }
  set (l2 := emit (step_log "Success pinging" "Ping failed" b2) st2).
  destruct (LinuxMacImplementation.request_and_get ip env l2) as [[b3|e3] st3] eqn:E3.
  2: { rewrite (run_tasks_third_raises task _ _ _ _ _ b1 st1 b2 st2 e3 st3 E1 E2 E3)
         in Hrun.
       simplify_eq. exists l2. by right. }
  set (l3 := emit (step_log "Success requesting and getting" "Request get failed" b3) st3).
  assert (∃ b4 st4, LinuxMacImplementation.run_test_batch file_name env l3 = (Ret b4, st4))
    as (b4 & st4 & E4).
  { rewrite posix_run_test_batch_eval. cbv zeta. repeat case_match; eauto. }
  by rewrite (run_tasks_when_operations_return task _ _ _ _ _ st1 st2 st3 st4
                b1 b2 b3 b4 E1 E2 E3 E4) in Hrun.
Qed.

(** The resolver of the sample network turns the address with the long
    zone identifier down; run_tasks ends with that exception. *)
Lemma linuxmac_what_can_raise_witness :
  LinuxMacImplementation.request_and_get Sample.long_zone_address Sample.posix_env Sample.psx
  = (Raise (Exn UnicodeError "label empty or too long"), Sample.psx)
  ∧ ∃ st0, LinuxMacImplementation.ping_url Sample.long_zone_address Sample.posix_env st0
           = (Raise (Exn UnicodeError "label empty or too long"),
              (run_tasks Sample.posix_task "/home/flopezlira" Sample.long_zone_address
                         "test.sh" Sample.posix_env Sample.psx).2)
         ∨ LinuxMacImplementation.request_and_get Sample.long_zone_address Sample.posix_env st0
           = (Raise (Exn UnicodeError "label empty or too long"),
              (run_tasks Sample.posix_task "/home/flopezlira" Sample.long_zone_address
                         "test.sh" Sample.posix_env Sample.psx).2).
Proof.
  destruct (linuxmac_what_can_raise "/home/flopezlira" Sample.long_zone_address "test.sh"
              Sample.posix_env Sample.psx) as (_ & _ & _ & Hdns & Hrun).
  split.
  - apply (Hdns BadEncoding "label empty or too long"). vm_compute; reflexivity.
  - apply Hrun. vm_compute; reflexivity.
Defined.

(* ===================================================================== *)
(** ** create_text_file, every case *)
(* ===================================================================== *)

(** Opening the marker path succeeds exactly when the marker can be
    written in the directory [d] leads to. *)
Lemma open_marker_succeeds_iff fl env st d :
  d ≠ "" → Str.has_nul d = false →
  match open_w_verdict fl (cwd env) (fs st) (Path.pathlib_Path fl [d; "Hello.txt"]) with
  | inr _ => true
  | inl _ => false
  end = marker_writable fl env st d.
Proof.
  intros Hd Hnul. unfold open_w_verdict, marker_writable, locate.
  rewrite decide_False, Hnul by done. rewrite resolve_marker.
  destruct (Os.resolve fl (cwd env) (fs st) (Path.parse fl d)) as [k|]; simpl; [|done].
  destruct (fs st !! k) as [[w|w s]|] eqn:Ek; try done.
  destruct (fs st !! (k ++ ["Hello.txt"])) as [[w'|[] s]|]; try done.
  rewrite take_pred_snoc, Ek. by destruct w.
Qed.

Lemma marker_writable_names_node fl env st p :
  names_node fl env st p = false → marker_writable fl env st p = false.
Proof.
  unfold names_node, marker_writable, locate, Os.stat.
  destruct (decide (p = "")); [done|].
  destruct (Str.has_nul p); [done|].
  destruct (Os.resolve fl (cwd env) (fs st) (Path.parse fl p)) as [k|]; simpl; [|done].
  by destruct (fs st !! k) as [[w|w s]|].
Qed.

Lemma access_flag_found fl env st p :
  access_flag fl env st p = true → p ≠ "" ∧ Str.has_nul p = false.
Proof.
  unfold access_flag.
  destruct (Os.stat fl (cwd env) (fs st) p) as [n|] eqn:E; [|done].
  intros _. by apply stat_found in E as (? & ? & _).
Qed.

(** X7. The POSIX create_text_file never raises, and it returns True
    exactly when the given path leads to a directory in which [Hello.txt]
    is a writable file, or is missing while the directory is writable. A
    missing path, a path to a file, a read-only directory, a read-only
    marker and a directory named [Hello.txt] all give False. *)
Theorem posix_create_text_file_result (path : string) (env : environ) (st : state) :
  (LinuxMacImplementation.create_text_file path env st).1
  = Ret (marker_writable posix env st path).
Proof.
  rewrite posix_create_text_file_eval.
  destruct (names_node posix env st path) eqn:Hn.
  - apply names_node_found in Hn as (Hne & Hnul & _).
    rewrite <- (open_marker_succeeds_iff posix env st path Hne Hnul). cbv zeta.
    by destruct (open_w_verdict posix _ _ _).
  - by rewrite (marker_writable_names_node _ _ _ _ Hn).
Qed.

(** X8. The Windows create_text_file raises [OSError] unless the path
    exists and [os.path.dirname(path)] is writable; otherwise it returns
    True exactly when [Hello.txt] can be written in the directory that
    [os.path.dirname(path)] leads to, and False when it cannot. *)
Theorem windows_create_text_file_result (path : string) (env : environ) (st : state) :
  (WindowsImplementation.create_text_file path env st).1
  = if names_node nt env st path
       && access_flag nt env st (Path.os_path_dirname nt path)
    then Ret (marker_writable nt env st (Path.os_path_dirname nt path))
    else Raise windows_refusal.
Proof.
  rewrite windows_create_text_file_eval. cbv zeta.
  destruct (names_node nt env st path); simpl; [|done].
  destruct (access_flag nt env st _) eqn:Ha; [|done].
  apply access_flag_found in Ha as [Hne Hnul].
  rewrite <- (open_marker_succeeds_iff nt env st _ Hne Hnul).
  by destruct (open_w_verdict nt _ _ _).
Qed.

(** When opening the marker path succeeds, the node opened is the entry
    [Hello.txt] of a directory, and it was missing or a writable file. *)
Lemma open_marker_target fl wd m d k' :
  open_w_verdict fl wd m (Path.pathlib_Path fl [d; "Hello.txt"]) = inr k' →
  ∃ k w, Os.resolve fl wd m (Path.parse fl d) = Some k
         ∧ m !! k = Some (Dir w)
         ∧ k' = k ++ ["Hello.txt"]
         ∧ (m !! (k ++ ["Hello.txt"]) = None
            ∨ ∃ c, m !! (k ++ ["Hello.txt"]) = Some (File true c)).
Proof.
  intros E. destruct (open_marker_inside _ _ _ _ _ E) as (k & w & Hk & Hd & ->).
  exists k, w. repeat split; try done.
  unfold open_w_verdict in E. rewrite resolve_marker, Hk in E. simpl in E.
  rewrite Hd in E.
  destruct (m !! (k ++ ["Hello.txt"])) as [[w'|[] c]|]; simplify_eq; eauto.
Qed.

Lemma last_snoc_marker (k : fskey) : last (k ++ ["Hello.txt"]) = Some "Hello.txt".
Proof. by rewrite last_snoc. Qed.

(** What [marker_effect] means for the nodes that are there. *)
Lemma marker_effect_frame st r :
  marker_effect st r →
  (r.1 ≠ Ret true → fs r.2 = fs st)
  ∧ (∀ k, last k ≠ Some "Hello.txt" → fs r.2 !! k = fs st !! k)
  ∧ (∀ k w, fs st !! k = Some (Dir w) → fs r.2 !! k = Some (Dir w))
  ∧ (∀ k, is_Some (fs st !! k) → is_Some (fs r.2 !! k)).
Proof.
  intros [[Hr Hfs]|(Hr & k0 & w0 & Hd & Hm & Hfs)]; rewrite Hfs.
  - done.
  - split; [done|]. split; [|split].
    + intros k Hk. apply lookup_insert_ne. intros <-.
      by rewrite last_snoc_marker in Hk.
    + intros k w Hk. rewrite lookup_insert_ne; [done|]. intros <-.
      destruct Hm as [Hm|[c Hm]]; congruence.
    + intros k Hk. destruct (decide (k0 ++ ["Hello.txt"] = k)) as [<-|Hne].
      * rewrite lookup_insert_eq. eauto.
      * by rewrite lookup_insert_ne.
Qed.

(** X9. In both variants create_text_file changes the file system in at
    most one place, and only when it returns True: then exactly one
    entry, [Hello.txt] of an existing directory, which was missing or a
    writable file, has become a file holding [Hello], and every other
    node is what it was. After False or an exception the file system is
    exactly what it was before. *)
Theorem create_text_file_frame (path : string) (env : environ) (st : state) :
  let l := LinuxMacImplementation.create_text_file path env st in
  let w := WindowsImplementation.create_text_file path env st in
  ((l.1 ≠ Ret true ∧ fs l.2 = fs st)
   ∨ (l.1 = Ret true
      ∧ ∃ k d, fs st !! k = Some (Dir d)
               ∧ (fs st !! (k ++ ["Hello.txt"]) = None
                  ∨ ∃ c, fs st !! (k ++ ["Hello.txt"]) = Some (File true c))
               ∧ fs l.2 = <[k ++ ["Hello.txt"] := File true "Hello"]> (fs st)))
  ∧
  ((w.1 ≠ Ret true ∧ fs w.2 = fs st)
   ∨ (w.1 = Ret true
      ∧ ∃ k d, fs st !! k = Some (Dir d)
               ∧ (fs st !! (k ++ ["Hello.txt"]) = None
                  ∨ ∃ c, fs st !! (k ++ ["Hello.txt"]) = Some (File true c))
               ∧ fs w.2 = <[k ++ ["Hello.txt"] := File true "Hello"]> (fs st))).
Proof.
  cbv zeta. split.
  - rewrite posix_create_text_file_eval.
    destruct (names_node posix env st path); [|by left].
    cbv zeta. destruct (open_w_verdict posix _ _ _) as [c|k'] eqn:E; [by left|].
    right. split; [done|].
    apply open_marker_target in E as (k & d & _ & Hd & -> & Hm).
    by exists k, d.
  - rewrite windows_create_text_file_eval. cbv zeta.
    destruct (names_node nt env st path); [|by left].
    destruct (access_flag nt env st _); [|by left].
    destruct (open_w_verdict nt _ _ _) as [c|k'] eqn:E; [by left|].
    right. split; [done|].
    apply open_marker_target in E as (k & d & _ & Hd & -> & Hm).
    by exists k, d.
Qed.

(** On the sample machines: the script beside the marker is untouched by
    a successful call, and a refused call changes nothing. *)
Lemma create_text_file_frame_witness :
  fs (LinuxMacImplementation.create_text_file
        "/home/flopezlira" Sample.posix_env Sample.psx).2
     !! ["home"; "flopezlira"; "test.sh"] = Some (File true "echo ok")
  ∧ fs (WindowsImplementation.create_text_file
          Sample.c_home2 Sample.win_env Sample.win).2 = fs Sample.win.
Proof.
  destruct (create_text_file_frame "/home/flopezlira" Sample.posix_env Sample.psx)
    as [HL _].
  destruct (create_text_file_frame Sample.c_home2 Sample.win_env Sample.win)
    as [_ HW].
  apply (marker_effect_frame Sample.psx) in HL as (_ & Hkeep & _).
  apply (marker_effect_frame Sample.win) in HW as (Hfail & _).
  split.
  - rewrite Hkeep; [reflexivity|]. vm_compute. discriminate.
  - apply Hfail. vm_compute. discriminate.
Defined.

(* ===================================================================== *)
(** ** Calling create_text_file again *)
(* ===================================================================== *)

(** Putting a file where no directory was does not change where paths
    lead. *)
Lemma walk_insert_file fl m k' w c cur ps :
  (∀ d, m !! k' ≠ Some (Dir d)) →
  Os.walk fl (<[k' := File w c]> m) cur ps = Os.walk fl m cur ps.
Proof.
  intros Hk'. revert cur. induction ps as [|p ps IH]; intros cur; simpl; [done|].
  destruct (decide (k' = cur)) as [->|Hne].
  - rewrite lookup_insert_eq.
    destruct (m !! cur) as [[d|w' c']|] eqn:E; try done.
    by destruct (Hk' d).
  - rewrite lookup_insert_ne by done.
    destruct (m !! cur) as [[d|w' c']|]; auto.
Qed.

Lemma stat_insert_file fl wd m k' w c p n :
  (∀ d, m !! k' ≠ Some (Dir d)) →
  Os.stat fl wd m p = Some n →
  ∃ n', Os.stat fl wd (<[k' := File w c]> m) p = Some n'
        ∧ ∀ d, n = Dir d → n' = Dir d.
Proof.
  intros Hk'. unfold Os.stat, Os.resolve.
  destruct (decide (p = "")); [done|].
  destruct (Str.has_nul p); [done|].
  rewrite walk_insert_file by done.
  destruct (Os.walk fl m _ _) as [k|]; simpl; [|done].
  destruct (decide (k' = k)) as [->|Hne].
  - rewrite lookup_insert_eq. simpl.
    destruct (m !! k) as [[d|w' c']|] eqn:E; simpl; [by destruct (Hk' d)| |done].
    destruct (Path.ends_in_directory fl p); [done|].
    intros [= <-]. eexists. split; [done|]. done.
  - rewrite lookup_insert_ne by done. intros Hn. exists n. by split.
Qed.

Lemma names_node_insert_file fl env st st1 k' w c p :
  (∀ d, fs st !! k' ≠ Some (Dir d)) →
  fs st1 = <[k' := File w c]> (fs st) →
  names_node fl env st p = true → names_node fl env st1 p = true.
Proof.
  intros Hk' Hfs. unfold names_node. rewrite Hfs.
  intros [n Hn]%bool_decide_eq_true.
  destruct (stat_insert_file fl (cwd env) _ k' w c p n Hk' Hn) as (n' & Hn' & _).
  apply bool_decide_eq_true. eauto.
Qed.

Lemma snoc_ne {A} (k : list A) (x : A) : k ++ [x] ≠ k.
Proof.
  intros H. apply (f_equal length) in H. rewrite length_app in H. simpl in H. lia.
Qed.

Lemma open_marker_again fl wd m d k' :
  open_w_verdict fl wd m (Path.pathlib_Path fl [d; "Hello.txt"]) = inr k' →
  open_w_verdict fl wd (<[k' := File true "Hello"]> m)
                 (Path.pathlib_Path fl [d; "Hello.txt"]) = inr k'.
Proof.
  intros E. apply open_marker_target in E as (k & dw & Hk & Hd & -> & Hm).
  assert (∀ d', m !! (k ++ ["Hello.txt"]) ≠ Some (Dir d')) as Hnd.
  { intros d'. destruct Hm as [Hm|[c Hm]]; congruence. }
  unfold open_w_verdict. rewrite resolve_marker. unfold Os.resolve in *.
  rewrite walk_insert_file by done. rewrite Hk. simpl.
  rewrite lookup_insert_ne by apply snoc_ne.
  rewrite Hd. by rewrite lookup_insert_eq.
Qed.

Lemma open_marker_not_dir fl wd m d k' :
  open_w_verdict fl wd m (Path.pathlib_Path fl [d; "Hello.txt"]) = inr k' →
  ∀ d', m !! k' ≠ Some (Dir d').
Proof.
  intros E d'. apply open_marker_target in E as (k & dw & _ & _ & -> & Hm).
  destruct Hm as [Hm|[c Hm]]; congruence.
Qed.

(** X10. create_text_file can be repeated: in both variants, after a
    call that returned True a second call with the same path returns True
    again and leaves the file system exactly as the first call left it
    (the marker is truncated and written anew, it still holds [Hello]). *)
Theorem create_text_file_again (path : string) (env : environ) (st st1 : state) :
  (LinuxMacImplementation.create_text_file path env st = (Ret true, st1) →
   ∃ st2, LinuxMacImplementation.create_text_file path env st1 = (Ret true, st2)
          ∧ fs st2 = fs st1)
  ∧
  (WindowsImplementation.create_text_file path env st = (Ret true, st1) →
   ∃ st2, WindowsImplementation.create_text_file path env st1 = (Ret true, st2)
          ∧ fs st2 = fs st1).
Proof.
  split.
  - rewrite !posix_create_text_file_eval. cbv zeta.
    destruct (names_node posix env st path) eqn:Hn; [|done].
    destruct (open_w_verdict posix _ (fs st) _) as [c|k'] eqn:E; [done|].
    intros [= <-].
    pose proof (open_marker_not_dir _ _ _ _ _ E) as Hnd.
    set (st1 := written posix (Path.pathlib_Path posix [path; "Hello.txt"]) k' "Hello"
                        (emit (EvExists path true) st)).
    assert (names_node posix env st1 path = true) as ->.
    { by apply (names_node_insert_file posix env (emit (EvExists path true) st)
                  st1 k' true "Hello"). }
    assert (open_w_verdict posix (cwd env) (fs st1)
              (Path.pathlib_Path posix [path; "Hello.txt"]) = inr k') as ->.
    { apply (open_marker_again _ _ _ _ _ E). }
    eexists. split; [reflexivity|].
    unfold st1, written. cbn [fs]. apply insert_insert_eq.
  - rewrite !windows_create_text_file_eval. cbv zeta.
    destruct (names_node nt env st path) eqn:Hn; [|done].
    destruct (access_flag nt env st _) eqn:Ha; [|done].
    destruct (open_w_verdict nt _ (fs st) _) as [c|k'] eqn:E; [done|].
    intros [= <-].
    pose proof (open_marker_not_dir _ _ _ _ _ E) as Hnd.
    set (d := Path.os_path_dirname nt path) in *.
    set (st0 := emit (EvAccessW d true) (emit (EvExists path true) st)).
    set (st1 := written nt (Path.pathlib_Path nt [d; "Hello.txt"]) k' "Hello" st0).
    assert (names_node nt env st1 path = true) as ->.
    { by apply (names_node_insert_file nt env st0 st1 k' true "Hello"). }
    assert (access_flag nt env st1 d = true) as ->.
    { unfold access_flag in *. unfold st1, written. cbn [fs].
      destruct (Os.stat nt (cwd env) (fs st) d) as [n|] eqn:Hs; [|done].
      destruct (stat_insert_file nt (cwd env) _ k' true "Hello" _ n Hnd Hs)
        as (n' & Hs' & Hdir).
      unfold st0. cbn [fs emit]. rewrite Hs'.
      apply open_marker_target in E as (k & dw & Hk & Hd & -> & Hm).
      assert (n = Dir dw) as ->.
      { pose proof (stat_found _ _ _ _ _ Hs) as (_ & _ & k2 & Hk2 & Hn2).
        congruence. }
      by rewrite (Hdir dw eq_refl). }
    assert (open_w_verdict nt (cwd env) (fs st1)
              (Path.pathlib_Path nt [d; "Hello.txt"]) = inr k') as ->.
    { apply (open_marker_again _ _ _ _ _ E). }
    eexists. split; [reflexivity|].
    unfold st1, written. cbn [fs]. apply insert_insert_eq.
Qed.

Lemma create_text_file_again_witness :
  (∃ st2, LinuxMacImplementation.create_text_file "/home/flopezlira" Sample.posix_env
            (LinuxMacImplementation.create_text_file
               "/home/flopezlira" Sample.posix_env Sample.psx).2 = (Ret true, st2)
          ∧ fs st2 = fs (LinuxMacImplementation.create_text_file
                           "/home/flopezlira" Sample.posix_env Sample.psx).2)
  ∧ (∃ st2, WindowsImplementation.create_text_file Sample.c_root Sample.win_env
              (WindowsImplementation.create_text_file
                 Sample.c_root Sample.win_env Sample.win).2 = (Ret true, st2)
            ∧ fs st2 = fs (WindowsImplementation.create_text_file
                             Sample.c_root Sample.win_env Sample.win).2).
Proof.
  destruct (create_text_file_again
              "/home/flopezlira" Sample.posix_env Sample.psx
              (LinuxMacImplementation.create_text_file
                 "/home/flopezlira" Sample.posix_env Sample.psx).2) as [HL _].
  destruct (create_text_file_again
              Sample.c_root Sample.win_env Sample.win
              (WindowsImplementation.create_text_file
                 Sample.c_root Sample.win_env Sample.win).2) as [_ HW].
  split; [apply HL | apply HW]; vm_compute; reflexivity.
Defined.

(* ===================================================================== *)
(** ** What goes over the network *)
(* ===================================================================== *)

Lemma windows_request_and_get_traffic ip env st :
  let r := WindowsImplementation.request_and_get ip env st in
  fs r.2 = fs st
  ∧ spawned (new_events st r.2) = []
  ∧ requests_of (new_events st r.2) = request_traffic (Os.py_str ip) env.
Proof.
  cbv zeta.
  destruct (windows_request_and_get_eval ip env st) as (st' & E & Hfs & Hev).
  rewrite E. cbn [snd]. split; [exact Hfs|]. rewrite Hev.
  unfold request_and_get_result, request_traffic.
  destruct (resolver env (Os.py_str ip)) as [h|kind msg|kind msg].
  - destruct (http env _); split; reflexivity.
  - split; reflexivity.
  - split; reflexivity.
Qed.

(** X11. In both variants request_and_get makes one reverse-DNS look-up
    of the text of the address and, only after a successful look-up,
    exactly one call of [requests.get], for [http://] followed by the
    first component of the answer, with a timeout of 10; a text that
    [socket.gethostbyaddr] turns down costs no look-up at all. Neither
    call is repeated, no process is started and the file system is not
    touched. *)
Theorem request_and_get_traffic (ip : Os.pyval) (env : environ) (st : state) :
  let w := WindowsImplementation.request_and_get ip env st in
  let l := LinuxMacImplementation.request_and_get ip env st in
  (fs w.2 = fs st
   ∧ spawned (new_events st w.2) = []
   ∧ requests_of (new_events st w.2)
     = match resolver env (Os.py_str ip) with
       | DnsOk h => [EvGetHostByAddr (Os.py_str ip); EvHttpGet ("http://" +:+ h.1.1) 10]
       | DnsFail _ _ => [EvGetHostByAddr (Os.py_str ip)]
       | DnsReject _ _ => []
       end)
  ∧
  (fs l.2 = fs st
   ∧ spawned (new_events st l.2) = []
   ∧ requests_of (new_events st l.2)
     = match resolver env (Os.py_str ip) with
       | DnsOk h => [EvGetHostByAddr (Os.py_str ip); EvHttpGet ("http://" +:+ h.1.1) 10]
       | DnsFail _ _ => [EvGetHostByAddr (Os.py_str ip)]
       | DnsReject _ _ => []
       end).
Proof.
  split.
  - apply (windows_request_and_get_traffic ip env st).
  - change (LinuxMacImplementation.request_and_get ip env st)
      with (WindowsImplementation.request_and_get ip env st).
    apply (windows_request_and_get_traffic ip env st).
Qed.

(* ===================================================================== *)
(** ** Windows paths without a directory part *)
(* ===================================================================== *)

Lemma replace_sep_free p :
  sep_free nt p = true → Str.replace Str.slash Str.bslash p = p.
Proof.
  induction p as [|c p IH]; simpl; [done|].
  intros [Hc Hp]%andb_true_iff. rewrite IH by done.
  destruct (decide (c = Str.slash)) as [->|Hne]. { by vm_compute in Hc. } done.
Qed.

Lemma get_sep_free fl p j c :
  sep_free fl p = true → Str.get j p = Some c → Path.is_sep fl c = false.
Proof.
  revert j. induction p as [|a p IH]; intros j; simpl; [by destruct j|].
  intros [Ha Hp]%andb_true_iff. destruct j as [|j]; simpl.
  - intros [= <-]. by apply negb_true_iff.
  - by apply IH.
Qed.

Lemma last_sep_end_sep_free fl p n :
  sep_free fl p = true → Path.last_sep_end fl p n = 0%nat.
Proof.
  intros Hp. induction n as [|n IH]; simpl; [done|].
  destruct (Str.get n p) as [c|] eqn:E; [|done].
  by rewrite (get_sep_free fl p n c Hp E).
Qed.

Lemma splitdrive_bare p :
  sep_free nt p = true → Str.get 1 p ≠ Some ":"%char →
  Path.ntpath_splitdrive p = ("", p).
Proof.
  intros Hp Hcolon. unfold Path.ntpath_splitdrive.
  destruct (decide (2 ≤ String.length p)%nat) as [Hlen|]; [|done].
  rewrite (replace_sep_free p Hp).
  destruct p as [|a [|b p]]; simpl in Hlen; try lia.
  simpl in Hp. apply andb_true_iff in Hp as [Ha _].
  assert (a ≠ Str.bslash) as Hna.
  { intros ->. done. }
  unfold Str.slice. simpl.
  rewrite bool_decide_eq_false_2 by congruence. simpl.
  rewrite bool_decide_eq_false_2; [done|].
  intros [= ->]. by destruct Hcolon.
Qed.

(** [os.path.dirname] of a name without separator or drive is empty. *)
Lemma dirname_bare p :
  sep_free nt p = true → Str.get 1 p ≠ Some ":"%char →
  Path.os_path_dirname nt p = "".
Proof.
  intros Hp Hcolon. unfold Path.os_path_dirname, Path.os_path_split, Path.splitdrive.
  rewrite (splitdrive_bare p Hp Hcolon).
  rewrite (last_sep_end_sep_free nt p _ Hp). by destruct p.
Qed.

(** X12. The Windows create_text_file turns down every path that
    consists of a bare name (no separator, no drive letter), also when
    that name is an existing writable directory of the working directory:
    [os.path.dirname] of such a path is empty, the write-permission check
    of the empty path fails, and the call raises [OSError] without
    writing. *)
Theorem windows_create_text_file_bare_name (path : string) (env : environ) (st : state) :
  sep_free nt path = true →
  Str.get 1 path ≠ Some ":"%char →
  ∃ st', WindowsImplementation.create_text_file path env st = (Raise windows_refusal, st')
         ∧ fs st' = fs st
         ∧ no_open (new_events st st').
Proof.
  intros Hp Hcolon. rewrite windows_create_text_file_eval. cbv zeta.
  rewrite (dirname_bare path Hp Hcolon).
  assert (access_flag nt env st "" = false) as -> by done.
  destruct (names_node nt env st path).
  - eexists. split; [reflexivity|]. split; [done|].
    rewrite new_events_emit2. intros p. absent.
  - eexists. split; [reflexivity|]. split; [done|].
    rewrite new_events_emit1. intros p. absent.
Qed.

(** [bob] is a writable directory of the working directory [C:\Users]. *)
Lemma windows_create_text_file_bare_name_witness :
  Os.stat nt (cwd Sample.win_env) (fs Sample.win) "bob" = Some (Dir true)
  ∧ ∃ st', WindowsImplementation.create_text_file "bob" Sample.win_env Sample.win
             = (Raise windows_refusal, st')
           ∧ fs st' = fs Sample.win
           ∧ no_open (new_events Sample.win st').
Proof.
  split; [vm_compute; reflexivity|].
  apply (windows_create_text_file_bare_name "bob" Sample.win_env Sample.win).
  - reflexivity.
  - discriminate.
Defined.

(* ===================================================================== *)
(** ** run_tasks on POSIX, end to end *)
(* ===================================================================== *)





(* ===================================================================== *)
(** ** Finding the marker under its name (POSIX) *)
(* ===================================================================== *)

Lemma append_empty_r (s : string) : s +:+ "" = s.
Proof. induction s as [|c s IH]; [done|]. by rewrite <- IH at 2. Qed.

Lemma rev_app_rev_app (x acc acc' : string) :
  String.rev_app (String.rev_app x acc) acc' = String.rev_app acc (x +:+ acc').
Proof.
  revert acc acc'. induction x as [|c x IH]; intros acc acc'; simpl; [done|].
  by rewrite IH.
Qed.

Lemma rev_rev_app (x : string) : String.rev (String.rev_app x "") = x.
Proof. unfold String.rev. rewrite rev_app_rev_app. simpl. apply append_empty_r. Qed.

(** Splitting runs through a piece without separators in one go. *)
Lemma split_go_piece fl x cur s :
  sep_free fl x = true →
  Str.split_go (Path.is_sep fl) cur (x +:+ s)
  = Str.split_go (Path.is_sep fl) (String.rev_app x cur) s.
Proof.
  revert cur. induction x as [|c x IH]; intros cur; simpl; [done|].
  intros [Hc Hx]%andb_true_iff. apply negb_true_iff in Hc.
  change (String c x +:+ s) with (String c (x +:+ s)). simpl.
  rewrite Hc. by apply IH.
Qed.

Lemma split_join fl (ps : list string) :
  ps ≠ [] →
  Forall (λ c, sep_free fl c = true) ps →
  Str.split (Path.is_sep fl) (Str.join (Path.sep fl) ps) = ps.
Proof.
  assert (∃ c, Path.sep fl = String c "" ∧ Path.is_sep fl c = true) as (c & -> & Hc).
  { destruct fl; eexists; by split. }
  unfold Str.split.
  induction ps as [|x ps IH]; [done|]. intros _ Hall.
  apply Forall_cons in Hall as [Hx Hps].
  destruct ps as [|y ps].
  - simpl. rewrite <- (append_empty_r x) at 1.
    rewrite (split_go_piece fl x "" "" Hx). simpl. by rewrite rev_rev_app.
  - change (Str.join (String c "") (x :: y :: ps))
      with (x +:+ String c (Str.join (String c "") (y :: ps))).
    rewrite (split_go_piece fl x "" _ Hx).
    simpl Str.split_go. rewrite Hc. rewrite rev_rev_app.
    f_equal. by apply IH.
Qed.

Lemma sep_free_rev_app fl x acc :
  sep_free fl x = true → sep_free fl acc = true →
  sep_free fl (String.rev_app x acc) = true.
Proof.
  revert acc. induction x as [|c x IH]; intros acc; simpl; [done|].
  intros [Hc Hx]%andb_true_iff Hacc. apply IH; [done|]. simpl. by rewrite Hc.
Qed.

(** The pieces that splitting gives hold no separator. *)
Lemma split_go_sep_free fl cur s :
  sep_free fl cur = true →
  Forall (λ c, sep_free fl c = true) (Str.split_go (Path.is_sep fl) cur s).
Proof.
  revert cur. induction s as [|c s IH]; intros cur Hcur; simpl.
  - apply Forall_singleton. by apply sep_free_rev_app.
  - destruct (Path.is_sep fl c) eqn:Hc.
    + apply Forall_cons. split; [by apply sep_free_rev_app|]. by apply IH.
    + apply IH. simpl. by rewrite Hc.
Qed.

Lemma parts_sep_free fl s :
  Forall (λ c, sep_free fl c = true ∧ Path.keep_part c = true) (Path.parts (Path.parse fl s)).
Proof.
  unfold Path.parse. destruct (Path.splitdrive fl s) as [d rest]. simpl.
  apply Forall_forall. intros c [Hkeep Hin]%list_elem_of_filter. split; [|done].
  pose proof (split_go_sep_free fl "" rest eq_refl) as Hall.
  rewrite Forall_forall in Hall. by apply Hall.
Qed.

Lemma filter_keep_all (ps : list string) :
  Forall (λ c, Path.keep_part c = true) ps →
  filter (λ c, Path.keep_part c = true) ps = ps.
Proof.
  induction 1 as [|c ps Hc _ IH]; [done|].
  rewrite filter_cons_True by done. by rewrite IH.
Qed.

Lemma join_cons_nonempty sepstr x ps : x ≠ "" → Str.join sepstr (x :: ps) ≠ "".
Proof.
  intros Hx. destruct ps as [|y ps]; [done|].
  change (Str.join sepstr (x :: y :: ps)) with (x +:+ sepstr +:+ Str.join sepstr (y :: ps)).
  by destruct x.
Qed.

Lemma join_starts_sep_free x ps :
  x ≠ "" → sep_free posix x = true →
  Str.starts_with (Path.is_sep posix) (Str.join "/" (x :: ps)) = false.
Proof.
  intros Hx Hfree. destruct x as [|c x]; [done|].
  simpl in Hfree. apply andb_true_iff in Hfree as [Hc _]. apply negb_true_iff in Hc.
  by destruct ps.
Qed.

Lemma split_leading_sep fl c s :
  Path.is_sep fl c = true →
  Str.split (Path.is_sep fl) (String c s) = "" :: Str.split (Path.is_sep fl) s.
Proof. intros Hc. unfold Str.split. simpl. by rewrite Hc. Qed.

(** On POSIX, parsing [str(p)] gives [p] back when [p] has components,
    none of them empty, [.] or holding a separator. *)
Lemma posix_parse_to_string r (ps : list string) :
  ps ≠ [] →
  Forall (λ c, sep_free posix c = true ∧ Path.keep_part c = true) ps →
  Path.parse posix (Path.to_string posix (Path.PurePath "" r ps)) = Path.PurePath "" r ps.
Proof.
  intros Hne Hall.
  assert (Forall (λ c, sep_free posix c = true) ps) as Hfree
    by (eapply Forall_impl; [exact Hall|]; by intros c [? ?]).
  assert (Forall (λ c, Path.keep_part c = true) ps) as Hkeep
    by (eapply Forall_impl; [exact Hall|]; by intros c [? ?]).
  pose proof (split_join posix ps Hne Hfree) as Hsplit. simpl in Hsplit.
  destruct ps as [|x ps]; [done|].
  assert (x ≠ "") as Hx.
  { apply Forall_cons in Hkeep as [Hk _]. by intros ->. }
  pose proof (join_cons_nonempty "/" x ps Hx) as Hbne.
  apply Forall_cons in Hfree as [Hfx _].
  pose proof (join_starts_sep_free x ps Hx Hfx) as Hstart.
  unfold Path.to_string. cbn [Path.parts Path.drive Path.root].
  change (Path.sep posix) with "/".
  remember (Str.join "/" (x :: ps)) as body eqn:Hbody.
  unfold Path.parse, Path.splitdrive.
  destruct r.
  - change ("" +:+ "/") with "/".
    change ("/" +:+ body) with (String "/" body).
    rewrite decide_False by done.
    f_equal. rewrite (split_leading_sep posix) by done.
    rewrite Hsplit. by rewrite filter_cons_False, filter_keep_all.
  - change ("" +:+ "") with "". change ("" +:+ body) with body.
    rewrite decide_False by done.
    rewrite Hstart, Hsplit. by rewrite filter_keep_all.
Qed.

(** The raw components of [str(p)], under the same conditions. *)
Lemma posix_to_string_split r (ps : list string) :
  ps ≠ [] →
  Forall (λ c, sep_free posix c = true ∧ Path.keep_part c = true) ps →
  Str.split (Path.is_sep posix) (Path.to_string posix (Path.PurePath "" r ps))
  = (if r then [""] else []) ++ ps.
Proof.
  intros Hne Hall.
  assert (Forall (λ c, sep_free posix c = true) ps) as Hfree
    by (eapply Forall_impl; [exact Hall|]; by intros c [? ?]).
  assert (Forall (λ c, Path.keep_part c = true) ps) as Hkeep
    by (eapply Forall_impl; [exact Hall|]; by intros c [? ?]).
  pose proof (split_join posix ps Hne Hfree) as Hsplit. simpl in Hsplit.
  destruct ps as [|x ps]; [done|].
  assert (x ≠ "") as Hx.
  { apply Forall_cons in Hkeep as [Hk _]. by intros ->. }
  pose proof (join_cons_nonempty "/" x ps Hx) as Hbne.
  unfold Path.to_string. cbn [Path.parts Path.drive Path.root].
  change (Path.sep posix) with "/".
  remember (Str.join "/" (x :: ps)) as body eqn:Hbody.
  destruct r.
  - change ("" +:+ "/") with "/".
    change ("/" +:+ body) with (String "/" body).
    rewrite decide_False by done.
    rewrite (split_leading_sep posix) by done. by rewrite Hsplit.
  - change ("" +:+ "") with "". change ("" +:+ body) with body.
    rewrite decide_False by done. by rewrite Hsplit.
Qed.

Lemma has_nul_rev_app x acc :
  Str.has_nul (String.rev_app x acc) = Str.has_nul x || Str.has_nul acc.
Proof.
  revert acc. induction x as [|c x IH]; intros acc; simpl; [done|].
  rewrite IH. simpl. by destruct (bool_decide _), (Str.has_nul x).
Qed.

(** The pieces of a string without NUL hold no NUL. *)
Lemma split_go_no_nul issep cur s :
  Str.has_nul cur = false → Str.has_nul s = false →
  Forall (λ c, Str.has_nul c = false) (Str.split_go issep cur s).
Proof.
  revert cur. induction s as [|c s IH]; intros cur Hcur; simpl.
  - intros _. apply Forall_singleton. unfold String.rev.
    by rewrite has_nul_rev_app, Hcur.
  - intros [Hc Hs]%orb_false_iff. destruct (issep c).
    + apply Forall_cons. split.
      * unfold String.rev. by rewrite has_nul_rev_app, Hcur.
      * by apply IH.
    + apply IH; [|done]. simpl. by rewrite Hc, Hcur.
Qed.

Lemma join_no_nul sepstr (ps : list string) :
  Str.has_nul sepstr = false →
  Forall (λ c, Str.has_nul c = false) ps →
  Str.has_nul (Str.join sepstr ps) = false.
Proof.
  intros Hsep. induction 1 as [|x ps Hx Hps IH]; [done|].
  destruct ps as [|y ps]; [done|].
  change (Str.join sepstr (x :: y :: ps))
    with (x +:+ sepstr +:+ Str.join sepstr (y :: ps)).
  by rewrite !has_nul_app, Hx, Hsep, IH.
Qed.

(** On POSIX the name of the marker holds no NUL when the path holds
    none, and it does not end like the name of a directory. *)
Lemma posix_marker_name path :
  Str.has_nul path = false →
  let name := Path.to_string posix (Path.pathlib_Path posix [path; "Hello.txt"]) in
  Str.has_nul name = false ∧ Path.ends_in_directory posix name = false.
Proof.
  intros Hnul. cbv zeta. rewrite marker_path.
  change (Path.drive (Path.parse posix path)) with "".
  set (ps := Path.parts (Path.parse posix path)).
  assert (Forall (λ c, Str.has_nul c = false) (ps ++ ["Hello.txt"])) as Hall.
  { apply Forall_app. split; [|by apply Forall_singleton].
    unfold ps, Path.parse, Path.splitdrive. cbn [Path.parts].
    apply Forall_forall. intros c [_ Hin]%list_elem_of_filter.
    pose proof (split_go_no_nul (Path.is_sep posix) "" path eq_refl Hnul) as Hp.
    rewrite Forall_forall in Hp. by apply Hp. }
  split.
  - unfold Path.to_string. cbn [Path.parts Path.drive Path.root].
    pose proof (join_no_nul (Path.sep posix) _ eq_refl Hall) as Hj.
    case_decide; [done|].
    rewrite has_nul_app, Hj. by destruct (Path.root (Path.parse posix path)).
  - unfold Path.ends_in_directory, Path.splitdrive.
    rewrite posix_to_string_split.
    + by rewrite app_assoc, last_snoc.
    + by destruct ps.
    + apply Forall_app. split; [apply parts_sep_free|].
      apply Forall_singleton. by split.
Qed.

Lemma resolve_insert_file fl wd m k' w c p :
  (∀ d, m !! k' ≠ Some (Dir d)) →
  Os.resolve fl wd (<[k' := File w c]> m) p = Os.resolve fl wd m p.
Proof. intros Hnd. unfold Os.resolve. by apply walk_insert_file. Qed.

Lemma to_string_nonempty fl p : Path.to_string fl p ≠ "".
Proof. unfold Path.to_string. cbv zeta. by case_decide. Qed.

Lemma posix_marker_round_trip path :
  Path.parse posix (Path.to_string posix (Path.pathlib_Path posix [path; "Hello.txt"]))
  = Path.pathlib_Path posix [path; "Hello.txt"].
Proof.
  rewrite marker_path.
  change (Path.drive (Path.parse posix path)) with "".
  apply posix_parse_to_string.
  - by destruct (Path.parts (Path.parse posix path)).
  - apply Forall_app. split; [apply parts_sep_free|].
    apply Forall_singleton. by split.
Qed.

(** X14. On POSIX, what create_text_file wrote is found again under the
    name it was opened with: after a call that returned True,
    [str(pathlib.Path(path, "Hello.txt"))] names a regular file, writable,
    whose content is exactly [Hello]. *)
Theorem posix_marker_found_by_name (path : string) (env : environ) (st st1 : state) :
  LinuxMacImplementation.create_text_file path env st = (Ret true, st1) →
  Os.stat posix (cwd env) (fs st1)
          (Path.to_string posix (Path.pathlib_Path posix [path; "Hello.txt"]))
  = Some (File true "Hello").
Proof.
  rewrite posix_create_text_file_eval. cbv zeta.
  destruct (names_node posix env st path) eqn:Hn; [|done].
  apply names_node_found in Hn as (_ & Hnul & _).
  destruct (posix_marker_name path Hnul) as [Hname Hfile].
  destruct (open_w_verdict posix _ (fs st) _) as [c|k'] eqn:E; [done|].
  intros [= <-].
  pose proof (open_marker_not_dir _ _ _ _ _ E) as Hnd.
  apply open_marker_target in E as (k & dw & Hk & Hd & -> & Hm).
  unfold Os.stat. rewrite decide_False by apply to_string_nonempty.
  rewrite Hname, posix_marker_round_trip.
  unfold written. cbn [fs emit].
  rewrite resolve_insert_file by done.
  rewrite resolve_marker, Hk. simpl. rewrite Hd. simpl.
  rewrite lookup_insert_eq. simpl. by rewrite Hfile.
Qed.

Lemma posix_marker_found_by_name_witness :
  Os.stat posix (cwd Sample.posix_env)
    (fs (LinuxMacImplementation.create_text_file
           "/home/flopezlira" Sample.posix_env Sample.psx).2)
    "/home/flopezlira/Hello.txt" = Some (File true "Hello").
Proof.
  apply (posix_marker_found_by_name "/home/flopezlira" Sample.posix_env Sample.psx).
  vm_compute; reflexivity.
Defined.

(* ===================================================================== *)
(** ** validate_path as the guard of create_text_file *)
(* ===================================================================== *)

(** X15. validate_path never raises and changes nothing in the file
    system; on Windows it is True exactly when the path exists and
    [os.path.dirname(path)] passes the write-permission check, on POSIX
    exactly when the path exists. In both variants create_text_file goes
    on to open a file exactly when validate_path is True. *)
Theorem validate_path_gates_the_write (path : string) (env : environ) (st : state) :
  (∃ stv, WindowsImplementation.validate_path path env st
            = (Ret (names_node nt env st path
                    && access_flag nt env st (Path.os_path_dirname nt path)), stv)
          ∧ fs stv = fs st
          ∧ ((∃ p, EvOpenW p ∈ new_events st
                     (WindowsImplementation.create_text_file path env st).2)
             ↔ names_node nt env st path
               && access_flag nt env st (Path.os_path_dirname nt path) = true))
  ∧
  (∃ stv, LinuxMacImplementation.validate_path path env st
            = (Ret (names_node posix env st path), stv)
          ∧ fs stv = fs st
          ∧ ((∃ p, EvOpenW p ∈ new_events st
                     (LinuxMacImplementation.create_text_file path env st).2)
             ↔ names_node posix env st path = true)).
Proof.
  split.
  - exists ((WindowsImplementation.validate_path path env st).2).
    split; [|split].
    + unfold WindowsImplementation.validate_path, Os.os_path_exists, Os.os_access_W_OK,
        names_node, access_flag.
      mstep. destruct (bool_decide _); simpl; [|done].
      by destruct (match Os.stat nt (cwd env) (fs st) _ with
                   | Some (Dir w) | Some (File w _) => w
                   | None => false
                   end).
    + unfold WindowsImplementation.validate_path, Os.os_path_exists, Os.os_access_W_OK.
      mstep. destruct (bool_decide _); simpl; [|done].
      by destruct (match Os.stat nt (cwd env) (fs st) _ with
                   | Some (Dir w) | Some (File w _) => w
                   | None => false
                   end).
    + rewrite windows_create_text_file_eval. cbv zeta.
      destruct (names_node nt env st path); simpl.
      * destruct (access_flag nt env st _); simpl.
        -- destruct (open_w_verdict nt _ _ _) as [c|k]; simpl; read_events;
             (split; [done|]); intros _; eexists; present.
        -- read_events. split; [|done]. intros [p Hp]. by members Hp.
      * read_events. split; [|done]. intros [p Hp]. by members Hp.
  - exists ((LinuxMacImplementation.validate_path path env st).2).
    split; [|split].
    + unfold LinuxMacImplementation.validate_path, Os.os_path_exists, names_node.
      mstep. by destruct (bool_decide _).
    + unfold LinuxMacImplementation.validate_path, Os.os_path_exists.
      mstep. by destruct (bool_decide _).
    + rewrite posix_create_text_file_eval. cbv zeta.
      destruct (names_node posix env st path); simpl.
      * destruct (open_w_verdict posix _ _ _) as [c|k]; simpl;
          [destruct (posix_handler_log_is_log c
                       (Path.to_string posix (Path.pathlib_Path posix [path; "Hello.txt"])))
             as (lvl & msg & args & ->)|];
          read_events; (split; [done|]); intros _; eexists; present.
      * read_events. split; [|done]. intros [p Hp]. by members Hp.
Qed.
